(** * causalml.propensity: propensity-score models, calibration and clamping

    A shallow embedding of [causalml/propensity.py].

    - Scores are numpy [float64] arrays: they are modelled by lists of Rocq's
      primitive binary64 floats, so that comparisons with NaN, rounding of the
      constants and the closed/open end points of the clipping interval are
      those of the program.  [np.where], [np.clip] and the comparisons follow
      numpy's documentation.
    - The classes [PropensityModel], [LogisticRegressionPropensityModel],
      [ElasticNetPropensityModel] and [GradientBoostedPropensityModel] are
      modelled with their class statements (bases, the methods each body
      defines) and Python's attribute lookup along the method resolution order.
    - scikit-learn, xgboost and the logging sink are outside the repository:
      they are an interface ([Libraries]) the development is parametric in.
      For the one statement that is about the library itself (what the
      isotonic regression behind [calibrate] returns), the module [Isotonic]
      models that regression from the specification, in exact arithmetic.
    - Exceptions and mutation are explicit: a computation maps a state to an
      outcome (a returned value or a raised exception) and a new state. *)

From Stdlib Require Import Floats ZArith QArith Lqa.
From stdpp Require Import gmap strings list sorting.

#[local] Set Warnings "-inexact-float".
#[local] Open Scope string_scope.

(** ** numpy: float64 scalars, element-wise comparison, [where], [clip] *)

Module np.

Definition ndarray := list float.
Definition ndarray2 := list (list float).

(** [np.finfo(float).eps]: the gap between 1.0 and the next float64. *)
Definition finfo_eps : float := 0x1p-52%float.

(** [a < c] and [a > c] for an array [a] and a scalar [c]: boolean arrays.
    A comparison with NaN is [False]. *)
Definition less (a : ndarray) (c : float) : list bool :=
  map (fun x => x <? c)%float a.
Definition greater (a : ndarray) (c : float) : list bool :=
  map (fun x => c <? x)%float a.

(** [np.where(cond, x, y)] for a scalar [x] and an array [y]. *)
Definition where_ (cond : list bool) (x : float) (y : ndarray) : ndarray :=
  zip_with (fun (c : bool) yi => if c then x else yi) cond y.

(** [np.maximum] and [np.minimum] propagate NaN. *)
Definition maximum (x y : float) : float :=
  if is_nan x then x else if is_nan y then y
  else if (x <? y)%float then y else x.
Definition minimum (x y : float) : float :=
  if is_nan x then x else if is_nan y then y
  else if (y <? x)%float then y else x.

(** [np.clip(a, a_min, a_max)], documented as equivalent to
    [np.minimum(a_max, np.maximum(a, a_min))]. *)
Definition clip1 (x a_min a_max : float) : float :=
  minimum a_max (maximum x a_min).
Definition clip (a : ndarray) (a_min a_max : float) : ndarray :=
  map (fun x => clip1 x a_min a_max) a.

(** [P[:, 1]] on a two-dimensional array: the column of index 1, or
    [None] (numpy raises IndexError) when axis 1 has fewer than two
    entries. *)
Definition column1 (P : ndarray2) : option ndarray :=
  mapM (fun row : list float => row !! 1%nat) P.

End np.

(** ** The final clamp of [compute_propensity_score] (lines 239-242) *)

Definition clamp_low : float := (0 + np.finfo_eps)%float.
Definition clamp_low_value : float := (0 + np.finfo_eps * 1.001)%float.
Definition clamp_high : float := (1 - np.finfo_eps)%float.
Definition clamp_high_value : float := (1 - np.finfo_eps * 1.001)%float.

Definition force_within_range (p : np.ndarray) : np.ndarray :=
  let p := np.where_ (np.less p clamp_low) clamp_low_value p in
  let p := np.where_ (np.greater p clamp_high) clamp_high_value p in
  p.

(** What the two [np.where] calls do to one entry. *)
Definition force1 (x : float) : float :=
  let y := if (x <? clamp_low)%float then clamp_low_value else x in
  if (clamp_high <? y)%float then clamp_high_value else y.



(** [lo <= x <= hi] / [lo < x < hi] on float64. *)
Definition within_closed (lo hi x : float) : bool := ((lo <=? x) && (x <=? hi))%float.

(** ** Outcomes of a call and stateful computations *)

(** [AttributeError] is what [except AttributeError] catches; [Exception cls]
    stands for an exception of any class outside [AttributeError]
    (IndexError, TypeError, ValueError, NotFittedError, ...). *)
Inductive exn :=
| AttributeError (attr : string)
| Exception (cls : string).

Inductive outcome (A : Type) :=
| Return (a : A)
| Raise (e : exn).
Arguments Return {A} a.
Arguments Raise {A} e.

(** A computation on a state [S]: the state it leaves is kept when it
    raises, as in Python. *)
Definition M (S A : Type) : Type := S → outcome A * S.

Definition ret {S A} (a : A) : M S A := fun s => (Return a, s).
Definition raise {S A} (e : exn) : M S A := fun s => (Raise e, s).
Definition bind {S A B} (m : M S A) (k : A → M S B) : M S B :=
  fun s => match m s with
           | (Return a, s') => k a s'
           | (Raise e, s') => (Raise e, s')
           end.
Definition lift {S A} (o : outcome A) : M S A := fun s => (o, s).

Notation "'let!' x ':=' c 'in' k" := (bind c (fun x => k))
  (at level 10, x name, c at level 100, k at level 200).

(** [try: body / except AttributeError: handler]. *)
Definition try_except_AttributeError {S A} (body handler : M S A) : M S A :=
  fun s => match body s with
           | (Raise (AttributeError _), s') => handler s'
           | r => r
           end.

(** ** Python values passed as keyword options *)

Inductive pyval :=
| PyNone
| PyBool (b : bool)
| PyInt (n : Z)
| PyFloat (x : float)
| PyStr (s : string)
| np_logspace (start stop : float) (num : Z)
| np_linspace (start stop : float) (num : Z)
| StratifiedKFold (n_splits shuffle random_state : pyval).

(** A dictionary of keyword options ([**model_kwargs], [kwargs]). *)
Abbreviation dict := (gmap string pyval).

Definition labels := list Z.

(** ** The external libraries *)

Inductive estimator := LogisticRegressionCV | XGBClassifier.

(** [IsotonicRegression(out_of_bounds=.., y_min=.., y_max=..)]. *)
Record IsotonicRegression := {
  out_of_bounds : string;
  y_min : float;
  y_max : float;
}.

(** scikit-learn, xgboost and string formatting, as the module uses them.
    A classifier is constructed from keyword arguments (the library's own
    validation of them is not modelled) and is fitted in place: [fit] learns
    parameters or raises; [train_test_split] draws from a random generator. *)
Class Libraries := {
  fitted : Type;
  rng : Type;
  estimator_fit :
    estimator → dict → np.ndarray2 → labels → list (np.ndarray2 * labels) → outcome fitted;
  estimator_predict_proba :
    estimator → dict → option fitted → np.ndarray2 → outcome np.ndarray2;
  estimator_repr : estimator → dict → string;
  train_test_split :
    np.ndarray2 → labels → float → rng →
    outcome (np.ndarray2 * np.ndarray2 * labels * labels) * rng;
  roc_auc_score : labels → np.ndarray → outcome float;
  format_6f : float → string;
  IsotonicRegression_fit_transform :
    IsotonicRegression → np.ndarray → labels → outcome np.ndarray;
}.

(** Model objects supplied by the caller that are not instances of the
    classes of this module: which attributes they have and what their
    [fit], [predict_proba] and [predict] do, to the object and as a result.
    The labels a hard [predict] returns are read as float64, the type
    [np.where] gives them in the final clamp. *)
Class ForeignModels := {
  foreign : Type;
  foreign_hasattr : foreign → string → bool;
  foreign_fit : foreign → np.ndarray2 → labels → outcome () * foreign;
  foreign_predict_proba : foreign → np.ndarray2 → outcome np.ndarray2 * foreign;
  foreign_predict : foreign → np.ndarray2 → outcome np.ndarray * foreign;
}.

(** ** The classes of the module *)

Inductive pm_class :=
| PropensityModel
| LogisticRegressionPropensityModel
| ElasticNetPropensityModel
| GradientBoostedPropensityModel.

#[global] Instance pm_class_eq_dec : EqDecision pm_class.
Proof. solve_decision. Defined.

(** The base named in each class statement ([None]: [object]). *)
Definition base (c : pm_class) : option pm_class :=
  match c with
  | PropensityModel => None
  | LogisticRegressionPropensityModel => Some PropensityModel
  | ElasticNetPropensityModel => Some LogisticRegressionPropensityModel
  | GradientBoostedPropensityModel => Some PropensityModel
  end.

(** The names each class body defines ([ElasticNetPropensityModel]: [pass]). *)
Definition class_body (c : pm_class) : list string :=
  match c with
  | PropensityModel =>
      ["__init__"; "_model"; "__repr__"; "fit"; "predict"; "fit_predict"]
  | LogisticRegressionPropensityModel => ["_model"]
  | ElasticNetPropensityModel => []
  | GradientBoostedPropensityModel => ["__init__"; "_model"; "fit"; "predict"]
  end.

(** Method resolution order: the class, then its chain of bases. *)
Fixpoint linearize (depth : nat) (c : pm_class) : list pm_class :=
  match depth with
  | O => []
  | S d => c :: match base c with Some b => linearize d b | None => [] end
  end.
Definition mro (c : pm_class) : list pm_class := linearize 4 c.

Definition defines (name : string) (k : pm_class) : bool :=
  bool_decide (name ∈ class_body k).

(** The class whose body provides attribute [name] for an instance of [c]. *)
Definition resolve (c : pm_class) (name : string) : option pm_class :=
  List.find (defines name) (mro c).

(** [super(k, self).name] for an instance of [c]: lookup after [k] in the
    order of [c]. *)
Fixpoint after (k : pm_class) (cs : list pm_class) : list pm_class :=
  match cs with
  | [] => []
  | c :: cs' => if bool_decide (c = k) then cs' else after k cs'
  end.

(** ** Instances and their methods *)

Section classes.
Context `{Libraries}.

(** The underlying classifier object held in [self.model]: how it was
    constructed and what [fit] has learned. *)
Record classifier := {
  est : estimator;
  params : dict;
  learned : option fitted;
}.

(** The attributes [__init__] sets on an instance; [early_stop] is set by
    [GradientBoostedPropensityModel.__init__] only. *)
Record instance := {
  clip_bounds : float * float;
  model_kwargs : dict;
  model : classifier;
  early_stop : option bool;
}.

Definition instance_attrs (i : instance) : list string :=
  ["clip_bounds"; "model_kwargs"; "model"] ++
  match early_stop i with Some _ => ["early_stop"] | None => [] end.

(** What a call can touch besides the objects: the records of the
    [causalml] logger and the random generator.  The trace also notes each
    call made on the model passed to [compute_propensity_score], so that the
    order of attempts, log records and calls can be stated. *)
Inductive event :=
| Info (msg : string)
| Called (target : positive) (method : string).

Record env := {
  trace : list event;
  random : rng;
}.

Definition frame : Type := instance * env.

Definition logger_info {S} (on : S → env) (upd : env → S → S) (msg : string) : M S () :=
  fun s => (Return (), upd {| trace := trace (on s) ++ [Info msg]; random := random (on s) |} s).

Definition frame_info : string → M frame () :=
  logger_info snd (fun e '(i, _) => (i, e)).

Definition get_self : M frame instance := fun '(i, e) => (Return i, (i, e)).

Definition set_model (m : classifier) : M frame () :=
  fun '(i, e) =>
    (Return (),
     ({| clip_bounds := clip_bounds i; model_kwargs := model_kwargs i;
         model := m; early_stop := early_stop i |}, e)).

(** [self.model.fit(X, y, eval_set=...)]: the classifier is fitted in place. *)
Definition model_fit (X : np.ndarray2) (y : labels)
    (eval_set : list (np.ndarray2 * labels)) : M frame () :=
  let! self := get_self in
  let m := model self in
  let! f := lift (estimator_fit (est m) (params m) X y eval_set) in
  set_model {| est := est m; params := params m; learned := Some f |}.

(** [self.model.predict_proba(X)[:, 1]]. *)
Definition getitem_column1 {S} (P : np.ndarray2) : M S np.ndarray :=
  match np.column1 P with
  | Some col => ret col
  | None => raise (Exception "IndexError")
  end.

Definition model_predict_proba_1 (X : np.ndarray2) : M frame np.ndarray :=
  let! self := get_self in
  let m := model self in
  let! P := lift (estimator_predict_proba (est m) (params m) (learned m) X) in
  getitem_column1 P.

(** *** class PropensityModel *)

Definition default_clip_bounds : float * float := (1e-3, 1 - 1e-3)%float.

(** [PropensityModel.fit] (line 42). *)
Definition PropensityModel_fit (X : np.ndarray2) (y : labels) : M frame () :=
  model_fit X y [].

(** [PropensityModel.predict] (line 54). *)
Definition PropensityModel_predict (X : np.ndarray2) : M frame np.ndarray :=
  let! self := get_self in
  let! a := model_predict_proba_1 X in
  ret (np.clip a (clip_bounds self).1 (clip_bounds self).2).

(** [PropensityModel.__repr__] (line 32). *)
Definition PropensityModel___repr__ : M frame string :=
  let! self := get_self in
  ret (estimator_repr (est (model self)) (params (model self))).

(** *** class LogisticRegressionPropensityModel *)

(** The property [_model] (lines 78-98), read on an object whose
    [model_kwargs] is [mk]: the classifier it builds and [model_kwargs] as
    [pop] leaves it. *)
Definition LogisticRegressionPropensityModel__model (mk : dict) : classifier * dict :=
  let '(n_splits, mk) :=
    match mk !! "n_fold" with
    | Some k => (k, delete "n_fold" mk)
    | None => (PyInt 4, mk)
    end in
  let kwargs : dict :=
    {[ "penalty" := PyStr "elasticnet";
       "solver" := PyStr "saga";
       "Cs" := np_logspace 1e-3 (1 - 1e-3) 4;
       "l1_ratios" := np_linspace 1e-3 (1 - 1e-3) 4;
       "cv" := StratifiedKFold n_splits (PyBool true)
                 (default (PyInt 42) (mk !! "random_state"));
       "random_state" := PyInt 42 ]} in
  (* kwargs.update(self.model_kwargs): the supplied options win *)
  let kwargs := mk ∪ kwargs in
  ({| est := LogisticRegressionCV; params := kwargs; learned := None |}, mk).

(** *** class GradientBoostedPropensityModel *)

(** The property [_model] (lines 122-138). *)
Definition GradientBoostedPropensityModel__model (mk : dict) (early_stop : bool)
    : classifier * dict :=
  let kwargs : dict :=
    {[ "max_depth" := PyInt 8;
       "learning_rate" := PyFloat 0.1;
       "n_estimators" := PyInt 100;
       "objective" := PyStr "binary:logistic";
       "nthread" := PyInt (-1);
       "colsample_bytree" := PyFloat 0.8;
       "random_state" := PyInt 42 ]} in
  let kwargs := mk ∪ kwargs in
  let kwargs :=
    if early_stop then ({[ "early_stopping_rounds" := PyInt 10 ]} : dict) ∪ kwargs
    else kwargs in
  ({| est := XGBClassifier; params := kwargs; learned := None |}, mk).

(** [train_test_split(X, y, test_size=stop_val_size)]: a random partition. *)
Definition call_train_test_split (X : np.ndarray2) (y : labels) (test_size : float)
    : M frame (np.ndarray2 * np.ndarray2 * labels * labels) :=
  fun '(i, e) =>
    let '(r, g) := train_test_split X y test_size (random e) in
    (r, (i, {| trace := trace e; random := g |})).

(** [self.early_stop]. *)
Definition get_early_stop : M frame bool :=
  let! self := get_self in
  match early_stop self with
  | Some b => ret b
  | None => raise (AttributeError "early_stop")
  end.

(** The methods a class body defines, by name; [None] where the body does
    not define the name.  [super_fit] and [super_predict] are the tables
    of the classes defined before [GradientBoostedPropensityModel]. *)
Definition super_fit (k : pm_class) : option (np.ndarray2 → labels → M frame ()) :=
  match k with
  | PropensityModel => Some PropensityModel_fit
  | _ => None
  end.

Definition super_predict (k : pm_class) : option (np.ndarray2 → M frame np.ndarray) :=
  match k with
  | PropensityModel => Some PropensityModel_predict
  | _ => None
  end.

Definition call_method {A} (name : string) (found : option pm_class)
    (table : pm_class → option (M frame A)) : M frame A :=
  match found ≫= table with
  | Some body => body
  | None => raise (AttributeError name)
  end.

(** [GradientBoostedPropensityModel.fit] (lines 140-160), on an instance
    of class [c]. *)
Definition GradientBoostedPropensityModel_fit (c : pm_class)
    (X : np.ndarray2) (y : labels) (stop_val_size : float) : M frame () :=
  let! es := get_early_stop in
  if es then
    let! split := call_train_test_split X y stop_val_size in
    let '(X_train, X_val, y_train, y_val) := split in
    model_fit X_train y_train [(X_val, y_val)]
  else
    call_method "fit"
      (List.find (defines "fit") (after GradientBoostedPropensityModel (mro c)))
      (fun k => (fun f => f X y) <$> super_fit k).

(** [GradientBoostedPropensityModel.predict] (lines 162-178). *)
Definition GradientBoostedPropensityModel_predict (c : pm_class)
    (X : np.ndarray2) : M frame np.ndarray :=
  let! es := get_early_stop in
  if es then
    let! self := get_self in
    let! a := model_predict_proba_1 X in
    ret (np.clip a (clip_bounds self).1 (clip_bounds self).2)
  else
    call_method "predict"
      (List.find (defines "predict") (after GradientBoostedPropensityModel (mro c)))
      (fun k => (fun f => f X) <$> super_predict k).

(** *** Attribute lookup on an instance of class [c] *)

Definition fit_table (c : pm_class) (X : np.ndarray2) (y : labels)
    (k : pm_class) : option (M frame ()) :=
  match k with
  | GradientBoostedPropensityModel =>
      (* [stop_val_size] keeps its default *)
      Some (GradientBoostedPropensityModel_fit c X y 0.2)
  | _ => (fun f => f X y) <$> super_fit k
  end.

Definition predict_table (c : pm_class) (X : np.ndarray2)
    (k : pm_class) : option (M frame np.ndarray) :=
  match k with
  | GradientBoostedPropensityModel => Some (GradientBoostedPropensityModel_predict c X)
  | _ => (fun f => f X) <$> super_predict k
  end.

(** [self.fit(X, y)] and [self.predict(X)] on an instance of class [c]. *)
Definition self_fit (c : pm_class) (X : np.ndarray2) (y : labels) : M frame () :=
  call_method "fit" (resolve c "fit") (fit_table c X y).

Definition self_predict (c : pm_class) (X : np.ndarray2) : M frame np.ndarray :=
  call_method "predict" (resolve c "predict") (predict_table c X).

(** [PropensityModel.fit_predict] (lines 67-70), on an instance of class [c]. *)
Definition PropensityModel_fit_predict (c : pm_class)
    (X : np.ndarray2) (y : labels) : M frame np.ndarray :=
  let! _ := self_fit c X y in
  let! propensity_scores := self_predict c X in
  let! a := lift (roc_auc_score y propensity_scores) in
  let! _ := frame_info ("AUC score: " ++ format_6f a) in
  ret propensity_scores.

Definition self_fit_predict (c : pm_class) (X : np.ndarray2) (y : labels)
    : M frame np.ndarray :=
  call_method "fit_predict" (resolve c "fit_predict")
    (fun k => match k with
              | PropensityModel => Some (PropensityModel_fit_predict c X y)
              | _ => None
              end).

Definition self___repr__ (c : pm_class) : M frame string :=
  call_method "__repr__" (resolve c "__repr__")
    (fun k => match k with
              | PropensityModel => Some PropensityModel___repr__
              | _ => None
              end).

(** *** Construction *)

(** [PropensityModel] is abstract (ABCMeta): a class is instantiable once a
    class body below [PropensityModel] provides the property [_model]. *)
Definition is_abstract (c : pm_class) : bool :=
  bool_decide (resolve c "_model" = Some PropensityModel).

(** [self._model] on an object of class [c] whose [model_kwargs] is [mk] and
    whose [early_stop] attribute, if set, is [es]. *)
Definition self__model (c : pm_class) (mk : dict) (es : option bool)
    : outcome (classifier * dict) :=
  match resolve c "_model" with
  | Some LogisticRegressionPropensityModel =>
      Return (LogisticRegressionPropensityModel__model mk)
  | Some GradientBoostedPropensityModel =>
      match es with
      | Some b => Return (GradientBoostedPropensityModel__model mk b)
      | None => Raise (AttributeError "early_stop")
      end
  | _ => Raise (AttributeError "_model")
  end.

(** [PropensityModel.__init__] (lines 22-24), on an object of class [c]. *)
Definition PropensityModel___init__ (c : pm_class) (es : option bool)
    (clip_bounds : float * float) (model_kwargs : dict) : outcome instance :=
  match self__model c model_kwargs es with
  | Return (m, model_kwargs) =>
      Return {| clip_bounds := clip_bounds; model_kwargs := model_kwargs;
                model := m; early_stop := es |}
  | Raise e => Raise e
  end.

(** [GradientBoostedPropensityModel.__init__] (lines 115-120). *)
Definition GradientBoostedPropensityModel___init__ (c : pm_class) (early_stop : bool)
    (clip_bounds : float * float) (model_kwargs : dict) : outcome instance :=
  match List.find (defines "__init__") (after GradientBoostedPropensityModel (mro c)) with
  | Some PropensityModel =>
      PropensityModel___init__ c (Some early_stop) clip_bounds model_kwargs
  | _ => Raise (AttributeError "__init__")
  end.

(** The call [c(early_stop=.., clip_bounds=.., **model_kwargs)], each named
    argument optional.  [PropensityModel.__init__] has no parameter
    [early_stop]: there the keyword lands in [model_kwargs]. *)
Definition instantiate (c : pm_class) (early_stop : option bool)
    (clip_bounds : option (float * float)) (model_kwargs : dict) : outcome instance :=
  if is_abstract c then Raise (Exception "TypeError")
  else
    let cb := default default_clip_bounds clip_bounds in
    match resolve c "__init__" with
    | Some GradientBoostedPropensityModel =>
        GradientBoostedPropensityModel___init__ c (default false early_stop) cb model_kwargs
    | Some PropensityModel =>
        PropensityModel___init__ c None cb
          (match early_stop with
           | Some b => <["early_stop" := PyBool b]> model_kwargs
           | None => model_kwargs
           end)
    | _ => Raise (AttributeError "__init__")
    end.

(** ** calibrate (lines 181-198) *)

Definition calibrate (ps : np.ndarray) (treatment : labels) : outcome np.ndarray :=
  let two_eps := (2.0 * np.finfo_eps)%float in
  let pm_ir := {| out_of_bounds := "clip"; y_min := two_eps; y_max := (1.0 - two_eps)%float |} in
  let ps_ir := IsotonicRegression_fit_transform pm_ir ps treatment in
  ps_ir.

(** ** compute_propensity_score (lines 201-244) *)

Context `{ForeignModels}.

(** A model object is an instance of one of the classes above or an object
    of the caller's. Objects live in a heap and are passed by reference. *)
Inductive object :=
| Instance (c : pm_class) (i : instance)
| Foreign (u : foreign).

Record world := {
  heap : gmap positive object;
  wenv : env;
}.

Definition hasattr (o : object) (name : string) : bool :=
  match o with
  | Instance c i =>
      bool_decide (name ∈ instance_attrs i) || bool_decide (is_Some (resolve c name))
  | Foreign u => foreign_hasattr u name
  end.

(** Attribute lookup on the object behind a reference. *)
Definition getattr (p_model : positive) (name : string) : M world object :=
  fun w =>
    match heap w !! p_model with
    | Some o =>
        if hasattr o name then (Return o, w) else (Raise (AttributeError name), w)
    | None => (Raise (Exception "ReferenceError"), w)
    end.

Definition store (r : positive) (o : object) (e : env) (w : world) : world :=
  {| heap := <[r := o]> (heap w); wenv := e |}.

Definition called (r : positive) (name : string) : M world () :=
  fun w =>
    (Return (),
     {| heap := heap w;
        wenv := {| trace := trace (wenv w) ++ [Called r name];
                   random := random (wenv w) |} |}).

Definition world_info : string → M world () :=
  logger_info wenv (fun e w => {| heap := heap w; wenv := e |}).

(** Run a method of the instance at [r]; the instance is updated in place. *)
Definition on_instance {A} (r : positive) (c : pm_class) (i : instance)
    (m : M frame A) : M world A :=
  fun w => let '(a, (i', e')) := m (i, wenv w) in (a, store r (Instance c i') e' w).

Definition on_foreign {A} (r : positive) (u : foreign)
    (m : foreign → outcome A * foreign) : M world A :=
  fun w => let '(a, u') := m u in (a, store r (Foreign u') (wenv w) w).

(** [p_model.fit(X, treatment)]. *)
Definition p_model_fit (p_model : positive) (X : np.ndarray2) (y : labels) : M world () :=
  let! o := getattr p_model "fit" in
  let! _ := called p_model "fit" in
  match o with
  | Instance c i => on_instance p_model c i (self_fit c X y)
  | Foreign u => on_foreign p_model u (fun u => foreign_fit u X y)
  end.

(** [p_model.predict_proba(X_pred)]; no class body of this module defines
    [predict_proba], so the lookup fails on every [Instance]. *)
Definition p_model_predict_proba (p_model : positive) (X : np.ndarray2)
    : M world np.ndarray2 :=
  let! o := getattr p_model "predict_proba" in
  let! _ := called p_model "predict_proba" in
  match o with
  | Instance c i => raise (AttributeError "predict_proba")
  | Foreign u => on_foreign p_model u (fun u => foreign_predict_proba u X)
  end.

(** [p_model.predict(X_pred)]. *)
Definition p_model_predict (p_model : positive) (X : np.ndarray2) : M world np.ndarray :=
  let! o := getattr p_model "predict" in
  let! _ := called p_model "predict" in
  match o with
  | Instance c i => on_instance p_model c i (self_predict c X)
  | Foreign u => on_foreign p_model u (fun u => foreign_predict u X)
  end.

(** [ElasticNetPropensityModel()]: a new object. *)
Definition new_ElasticNetPropensityModel : M world positive :=
  let! i := lift (instantiate ElasticNetPropensityModel None None ∅) in
  fun w =>
    let r := fresh (dom (heap w)) in
    (Return r, store r (Instance ElasticNetPropensityModel i) (wenv w) w).

Definition fallback_message : string :=
  "predict_proba not available, using predict instead".
Definition calibrating_message : string :=
  "Calibrating propensity scores. Returning p_model=None.".

(** Lines 228-232: the [try] block and its handler. *)
Definition predict_scores (p_model : positive) (X_pred : np.ndarray2) : M world np.ndarray :=
  try_except_AttributeError
    (let! P := p_model_predict_proba p_model X_pred in
     getitem_column1 P)
    (let! _ := world_info fallback_message in
     p_model_predict p_model X_pred).

Definition compute_propensity_score (X : np.ndarray2) (treatment : labels)
    (p_model : option positive) (X_pred : option np.ndarray2)
    (treatment_pred : option labels) (calibrate_p : bool)
    : M world (np.ndarray * option positive) :=
  let treatment_pred :=
    match treatment_pred with None => treatment (* .copy() *) | Some t => t end in
  let! p_model :=
    match p_model with
    | None => new_ElasticNetPropensityModel
    | Some r => ret r
    end in
  let! _ := p_model_fit p_model X treatment in
  let X_pred := match X_pred with None => X | Some X' => X' end in
  let! p := predict_scores p_model X_pred in
  let! calibrated :=
    if calibrate_p then
      let! _ := world_info calibrating_message in
      let! p := lift (calibrate p treatment_pred) in
      ret (p, None)
    else ret (p, Some p_model) in
  let '(p, p_model) := calibrated in
  ret (force_within_range p, p_model).

(** [w'] holds the objects of [w], the one behind [r] possibly updated in
    place: no object was created, none was dropped. *)
Definition same_objects (r : positive) (w w' : world) : Prop :=
  dom (heap w') = dom (heap w) ∧ ∀ r', r' ≠ r → heap w' !! r' = heap w !! r'.

End classes.

(** ** The isotonic regression behind [calibrate], from the specification

    [calibrate] hands its arguments to scikit-learn's [IsotonicRegression],
    whose code is not part of the repository.  This module models it from
    the specification (section 4.4): a monotonic recalibration of the scores
    against the observed treatment labels, fit by least-squares isotonic
    regression (pooling adjacent violators), with the output clipped to
    [[y_min, y_max]].  Numbers are exact rationals: rounding inside the
    library is not modelled. *)

Module Isotonic.
#[local] Open Scope Q_scope.

(** Modelled from the spec: a run of consecutive scores that share one
    fitted value — the scores from [first] to [last], the sum of their
    labels and their number. *)
Record block := {
  first : Q;
  last : Q;
  total : Q;
  weight : Q;
}.

(** Modelled from the spec: the least-squares value of a block, the mean of
    its labels. *)
Definition value (b : block) : Q := total b / weight b.

Definition point (x y : Q) : block :=
  {| first := x; last := x; total := y; weight := 1 |}.

Definition absorb (g : block) (y : Q) : block :=
  {| first := first g; last := last g; total := total g + y; weight := weight g + 1 |}.

(** Modelled from the spec: the observations in increasing order of score,
    equal scores sharing a group (the output is a function of the score). *)
Fixpoint add_point (x y : Q) (gs : list block) : list block :=
  match gs with
  | [] => [point x y]
  | g :: gs' =>
      if Qlt_le_dec x (first g) then point x y :: g :: gs'
      else if Qlt_le_dec (first g) x then g :: add_point x y gs'
      else absorb g y :: gs'
  end.

Definition groups (X y : list Q) : list block :=
  foldr (fun xy gs => add_point xy.1 xy.2 gs) [] (zip X y).

Definition pool (a b : block) : block :=
  {| first := first a; last := last b;
     total := total a + total b; weight := weight a + weight b |}.

(** Modelled from the spec: least-squares isotonic regression by pooling
    adjacent violators.  The stack holds the blocks fitted so far, the one of
    the largest scores on top; a new block whose value is below the value of
    the top is pooled with it, and the pooled block is tried again. *)
Fixpoint push (b : block) (stack : list block) : list block :=
  match stack with
  | [] => [b]
  | t :: rest =>
      if Qlt_le_dec (value b) (value t) then push (pool t b) rest else b :: stack
  end.

Definition pava (gs : list block) : list block :=
  foldl (fun stack g => push g stack) [] gs.

(** Modelled from the spec: the output is clipped to [[y_min, y_max]]. *)
Definition clip (y_min y_max v : Q) : Q :=
  if Qlt_le_dec v y_min then y_min
  else if Qlt_le_dec y_max v then y_max else v.

Definition covers (x : Q) (b : block) : bool :=
  Qle_bool (first b) x && Qle_bool x (last b).

(** Modelled from the spec: the calibrated value of a score, the clipped
    value of the block that holds it.  (Every fitted score is held by a
    block, see [fit_transform_spec]; [y_min] stands for no block.) *)
Definition transform (y_min y_max : Q) (blocks : list block) (x : Q) : Q :=
  match List.find (covers x) blocks with
  | Some b => clip y_min y_max (value b)
  | None => y_min
  end.

(** Modelled from the spec: [IsotonicRegression(out_of_bounds="clip",
    y_min=.., y_max=..).fit_transform(X, y)], missing from the repository:
    fit on the observations, then read the fitted value of each score.
    [None]: the arrays differ in length. *)
Definition fit_transform (y_min y_max : Q) (X y : list Q) : option (list Q) :=
  if decide (length X = length y)
  then Some (map (transform y_min y_max (pava (groups X y))) X)
  else None.

(** Machine epsilon of float64, as a rational. *)
Definition eps : Q := 1 # 4503599627370496.

(** Modelled from the spec: [calibrate] (lines 194-198) over the modelled
    regression. *)
Definition calibrate (ps : list Q) (treatment : labels) : option (list Q) :=
  let two_eps := 2 * eps in
  fit_transform two_eps (1 - two_eps) ps (map inject_Z treatment).

(** Invariants of the fit. *)
Definition wf (b : block) : Prop := first b <= last b.
Definition single (g : block) : Prop := first g == last g.
Definition before (a b : block) : Prop := last a < first b.
Definition below (older newer : block) : Prop :=
  before older newer ∧ value older <= value newer.
Definition stack_ok (stack : list block) : Prop :=
  StronglySorted (fun newer older => below older newer) stack ∧ Forall wf stack.

End Isotonic.

(** ** A small stand-in for the libraries, for closed examples

    The stand-in classifier learns nothing; its [predict_proba] reports, for
    each row, the row's first feature as the probability of class 1.  The
    stand-in isotonic regressor clips to [[y_min, y_max]].  A caller's model
    object answers with canned arrays. *)

Module Toy.

Definition proba_row (row : list float) : list float :=
  let s := default 0%float (head row) in [(1 - s)%float; s].

Definition libs : Libraries := {|
  fitted := unit;
  rng := unit;
  estimator_fit _ _ _ _ _ := Return tt;
  estimator_predict_proba _ _ f X :=
    match f with
    | Some _ => Return (map proba_row X)
    | None => Raise (Exception "NotFittedError")
    end;
  estimator_repr e _ :=
    match e with
    | LogisticRegressionCV => "LogisticRegressionCV(...)"
    | XGBClassifier => "XGBClassifier(...)"
    end;
  train_test_split X y _ g := (Return (X, X, y, y), g);
  roc_auc_score _ _ := Return 0.5%float;
  format_6f _ := "0.500000";
  IsotonicRegression_fit_transform ir ps _ := Return (np.clip ps (y_min ir) (y_max ir));
|}.

Record canned := {
  attrs : list string;
  proba : np.ndarray2;
  hard : np.ndarray;
}.

Definition models : ForeignModels := {|
  foreign := canned;
  foreign_hasattr u name := bool_decide (name ∈ attrs u);
  foreign_fit u _ _ := (Return tt, u);
  foreign_predict_proba u _ := (Return (proba u), u);
  foreign_predict u _ := (Return (hard u), u);
|}.

Definition env0 : @env libs := @Build_env libs [] tt.

(** A world holding one caller's object, at reference 1. *)
Definition world_with (u : canned) : @world libs models :=
  @Build_world libs models {[ 1%positive := @Foreign libs models u ]} env0.

Definition empty_world : @world libs models := @Build_world libs models ∅ env0.

(** A classifier with [predict_proba] and [predict]. *)
Definition soft : canned :=
  {| attrs := ["fit"; "predict_proba"; "predict"];
     proba := [[0.25; 0.75]; [1; 0]; [0; 1]]%float;
     hard := [1; 0; 1]%float |}.

(** A classifier with hard-label [predict] only. *)
Definition hard_only : canned :=
  {| attrs := ["fit"; "predict"]; proba := []; hard := [1; 0; 1]%float |}.


(** A model with [fit] alone, one without [fit], and one whose
    [predict_proba] reports a single column. *)
Definition fit_only : canned :=
  {| attrs := ["fit"]; proba := []; hard := [] |}.


Definition one_column : canned :=
  {| attrs := ["fit"; "predict_proba"; "predict"];
     proba := [[0.5]; [0.25]]%float; hard := [1; 0]%float |}.

(** A [GradientBoostedPropensityModel(early_stop=True)] as its constructor
    leaves it, and a world holding it at reference 1. *)
Definition boosted : @instance libs :=
  @Build_instance libs default_clip_bounds ∅
    (@GradientBoostedPropensityModel__model libs ∅ true).1 (Some true).


(** The same libraries, with an AUC that is undefined — [roc_auc_score]
    raises [ValueError] — when the labels hold a single class. *)
Definition libs_strict : Libraries := {|
  fitted := unit;
  rng := unit;
  estimator_fit _ _ _ _ _ := Return tt;
  estimator_predict_proba _ _ f X :=
    match f with
    | Some _ => Return (map proba_row X)
    | None => Raise (Exception "NotFittedError")
    end;
  estimator_repr e _ :=
    match e with
    | LogisticRegressionCV => "LogisticRegressionCV(...)"
    | XGBClassifier => "XGBClassifier(...)"
    end;
  train_test_split X y _ g := (Return (X, X, y, y), g);
  roc_auc_score y _ :=
    match y with
    | [] => Raise (Exception "ValueError")
    | l :: ls =>
        if forallb (Z.eqb l) ls then Raise (Exception "ValueError")
        else Return 0.5%float
    end;
  format_6f _ := "0.500000";
  IsotonicRegression_fit_transform ir ps _ := Return (np.clip ps (y_min ir) (y_max ir));
|}.

End Toy.

(** ** Facts on float64 comparison, through its specification [SFcompare] *)

Section float_order.

Lemma where_less_map (p : np.ndarray) c x :
  np.where_ (np.less p c) x p = map (fun y => if (y <? c)%float then x else y) p.
Proof.
  unfold np.where_, np.less. induction p as [|y p IH]; simpl; [done|].
  by rewrite IH.
Qed.

Lemma where_greater_map (p : np.ndarray) c x :
  np.where_ (np.greater p c) x p = map (fun y => if (c <? y)%float then x else y) p.
Proof.
  unfold np.where_, np.greater. induction p as [|y p IH]; simpl; [done|].
  by rewrite IH.
Qed.

Lemma force_within_range_map p : force_within_range p = map force1 p.
Proof.
  unfold force_within_range. cbv zeta.
  rewrite where_less_map, where_greater_map, map_map. done.
Qed.

Lemma is_nan_spec x : is_nan x = negb (SFeqb (Prim2SF x) (Prim2SF x)).
Proof. unfold is_nan. by rewrite FloatAxioms.eqb_spec. Qed.

Lemma SFcompare_refl s : SFeqb s s = false → s = S754_nan.
Proof.
  destruct s as [b|b| |b m e]; unfold SFeqb; simpl; try done.
  - by destruct b.
  - destruct b; rewrite Z.compare_refl, Pos.compare_cont_refl; done.
Qed.

Lemma not_nan_spec x : is_nan x = false → Prim2SF x ≠ S754_nan.
Proof.
  rewrite is_nan_spec. intros H E. rewrite E in H. done.
Qed.

Lemma nan_spec x : is_nan x = true → Prim2SF x = S754_nan.
Proof.
  rewrite is_nan_spec. intros H. apply SFcompare_refl.
  by destruct (SFeqb _ _).
Qed.

(** Comparison is antisymmetric on all specification floats. *)
Lemma SFcompare_antisym s t :
  SFcompare t s = CompOpp <$> SFcompare s t.
Proof.
  destruct s as [a|a| |a m e], t as [b|b| |b n f]; simpl; try done;
    try (by destruct a); try (by destruct b); try (by destruct a, b).
  destruct a, b; simpl; try done.
  - rewrite (Z.compare_antisym e f). destruct (e ?= f)%Z; simpl; try done.
    by rewrite (Pos.compare_cont_antisym m n Eq).
  - rewrite (Z.compare_antisym e f). destruct (e ?= f)%Z; simpl; try done.
    by rewrite (Pos.compare_cont_antisym m n Eq).
Qed.

Lemma ltb_false_leb x y :
  is_nan x = false → is_nan y = false → (x <? y)%float = false → (y <=? x)%float = true.
Proof.
  intros Hx%not_nan_spec Hy%not_nan_spec. rewrite FloatAxioms.ltb_spec, FloatAxioms.leb_spec.
  unfold SFltb, SFleb. rewrite (SFcompare_antisym (Prim2SF x) (Prim2SF y)).
  destruct (Prim2SF x) as [a|a| |a m e], (Prim2SF y) as [b|b| |b n f]; try done;
    destruct (SFcompare _ _) as [[]|] eqn:E; simpl; try done.
Qed.

Lemma ltb_leb x y : (x <? y)%float = true → (x <=? y)%float = true.
Proof.
  rewrite FloatAxioms.ltb_spec, FloatAxioms.leb_spec. unfold SFltb, SFleb.
  by destruct (SFcompare _ _) as [[]|].
Qed.

Lemma leb_refl x : is_nan x = false → (x <=? x)%float = true.
Proof.
  intros Hx. rewrite FloatAxioms.leb_spec. rewrite is_nan_spec in Hx.
  unfold SFeqb, SFleb in *. by destruct (SFcompare _ _) as [[]|].
Qed.

Lemma SFeqb_refl s : s ≠ S754_nan → SFeqb s s = true.
Proof.
  intros Hs. destruct (SFeqb s s) eqn:E; [done|]. by apply SFcompare_refl in E.
Qed.

Lemma SFcompare_Some_not_nan s t c :
  SFcompare s t = Some c → s ≠ S754_nan ∧ t ≠ S754_nan.
Proof. by destruct s, t. Qed.

Lemma leb_not_nan x y : (x <=? y)%float = true → is_nan x = false ∧ is_nan y = false.
Proof.
  rewrite FloatAxioms.leb_spec, !is_nan_spec. unfold SFleb.
  destruct (SFcompare _ _) as [c|] eqn:E; [|done]. intros _.
  apply SFcompare_Some_not_nan in E as [Hx Hy].
  by rewrite !SFeqb_refl.
Qed.

End float_order.

(** ** The clamp and the clip on one float64 entry *)

Section clamp_facts.

(** The four constants, as binary64 values.  [1 - eps * 1.001] rounds to
    [1 - eps]: below 1 the floats are [eps / 2] apart. *)
Lemma clamp_constants :
  Prim2SF clamp_low = S754_finite false 4503599627370496 (-104) ∧
  Prim2SF clamp_low_value = S754_finite false 4508103226997866 (-104) ∧
  Prim2SF clamp_high = S754_finite false 9007199254740990 (-53) ∧
  clamp_high_value = clamp_high.
Proof. by vm_compute. Qed.


Lemma ltb_nan_l x y : is_nan x = true → (x <? y)%float = false.
Proof.
  intros Hx%nan_spec. rewrite FloatAxioms.ltb_spec, Hx. done.
Qed.

Lemma ltb_nan_r x y : is_nan y = true → (x <? y)%float = false.
Proof.
  intros Hy%nan_spec. rewrite FloatAxioms.ltb_spec, Hy. unfold SFltb.
  by destruct (Prim2SF x).
Qed.

(** A NaN passes both [np.where] calls unchanged. *)
Lemma force1_nan x : is_nan x = true → force1 x = x.
Proof.
  intros Hx. unfold force1. cbv zeta.
  by rewrite (ltb_nan_l x), (ltb_nan_r _ x).
Qed.

(** [np.clip] keeps a number inside the closed interval of its bounds. *)
Lemma clip1_within x lo hi :
  is_nan x = false → (lo <=? hi)%float = true →
  within_closed lo hi (np.clip1 x lo hi) = true.
Proof.
  intros Hx Hle. destruct (leb_not_nan _ _ Hle) as [Hlo Hhi].
  unfold np.clip1, np.maximum, np.minimum, within_closed.
  rewrite Hx, Hlo, Hhi.
  destruct (x <? lo)%float eqn:E1.
  - rewrite Hlo. destruct (lo <? hi)%float eqn:E2.
    + by rewrite leb_refl, Hle.
    + by rewrite Hle, leb_refl.
  - rewrite Hx. destruct (x <? hi)%float eqn:E2.
    + by rewrite ltb_false_leb, ltb_leb.
    + by rewrite Hle, leb_refl.
Qed.

(** Below the lower bound the clip returns the bound itself. *)
Lemma clip1_below x lo hi :
  (x <? lo)%float = true → (lo <? hi)%float = true → np.clip1 x lo hi = lo.
Proof.
  intros E1 E2. unfold np.clip1, np.maximum, np.minimum.
  destruct (is_nan x) eqn:Hx; [by rewrite ltb_nan_l in E1|].
  destruct (is_nan lo) eqn:Hlo; [by rewrite ltb_nan_r in E1|].
  destruct (is_nan hi) eqn:Hhi; [by rewrite ltb_nan_r in E2|].
  by rewrite E1, Hlo, E2.
Qed.

(** The two replacements, entry by entry. *)
Lemma force1_below x : (x <? clamp_low)%float = true → force1 x = clamp_low_value.
Proof. unfold force1. cbv zeta. intros ->. by vm_compute. Qed.

Lemma below_not_above x :
  (x <? clamp_low)%float = true → (clamp_high <? x)%float = true → False.
Proof.
  rewrite !FloatAxioms.ltb_spec.
  destruct clamp_constants as (-> & _ & -> & _). unfold SFltb.
  destruct (Prim2SF x) as [b|b| |b m e]; try done.
  - by destruct b.
  - destruct b; cbn [SFcompare]; [done|].
    destruct (Z.compare_spec e (-104)) as [E|E|E]; try done;
      destruct (Z.compare_spec (-53) e) as [E'|E'|E']; try done; lia.
Qed.

Lemma force1_above x : (clamp_high <? x)%float = true → force1 x = clamp_high_value.
Proof.
  intros Hhi. unfold force1. cbv zeta.
  destruct (x <? clamp_low)%float eqn:Hlo.
  - destruct (below_not_above x Hlo Hhi).
  - by rewrite Hhi.
Qed.

Lemma force1_between x :
  (x <? clamp_low)%float = false → (clamp_high <? x)%float = false → force1 x = x.
Proof. unfold force1. cbv zeta. by intros -> ->. Qed.

End clamp_facts.

(** ** Reasoning about computations *)

Section monad_facts.
Context {S A B : Type}.

Lemma bind_Return (m : M S A) (k : A → M S B) s b s' :
  bind m k s = (Return b, s') →
  ∃ a s1, m s = (Return a, s1) ∧ k a s1 = (Return b, s').
Proof.
  unfold bind. destruct (m s) as [[a|e] s1]; [eauto|done].
Qed.

Lemma bind_step (m : M S A) (k : A → M S B) s a s1 :
  m s = (Return a, s1) → bind m k s = k a s1.
Proof. unfold bind. by intros ->. Qed.

Lemma bind_Raise (m : M S A) (k : A → M S B) s e s1 :
  m s = (Raise e, s1) → bind m k s = (Raise e, s1).
Proof. unfold bind. by intros ->. Qed.

End monad_facts.

(** ** compute_propensity_score: what is returned *)

Section compute_propensity_score_facts.
Context `{Libraries} `{ForeignModels}.

(** The last two steps: the optional calibration and the clamp. *)
Lemma compute_propensity_score_Return X treatment p_model X_pred treatment_pred
    calibrate_p w p m w' :
  compute_propensity_score X treatment p_model X_pred treatment_pred calibrate_p w
    = (Return (p, m), w') →
  ∃ r raw,
    p = force_within_range raw ∧
    m = (if calibrate_p then None else Some r) ∧
    (∀ r0, p_model = Some r0 → r = r0).
Proof.
  unfold compute_propensity_score. intros Hrun.
  apply bind_Return in Hrun as (r & w0 & Hnew & Hrun).
  apply bind_Return in Hrun as ([] & w1 & Hfit & Hrun).
  apply bind_Return in Hrun as (p0 & w2 & Hpredict & Hrun).
  apply bind_Return in Hrun as ([p1 m1] & w3 & Hcal & Hrun).
  unfold ret in Hrun. injection Hrun as <- <- <-.
  exists r, p1. split; [done|]. split.
  - destruct calibrate_p.
    + apply bind_Return in Hcal as ([] & w4 & _ & Hcal).
      apply bind_Return in Hcal as (p2 & w5 & _ & Hcal).
      unfold ret in Hcal. by simplify_eq.
    + unfold ret in Hcal. by simplify_eq.
  - intros r0 ->. unfold ret in Hnew. by simplify_eq.
Qed.



(** C2: with [calibrate_p=True] the second component of the result is
    [None], whatever model was passed. *)
Theorem compute_propensity_score_calibrated_None X treatment p_model X_pred
    treatment_pred w p m w' :
  compute_propensity_score X treatment p_model X_pred treatment_pred true w
    = (Return (p, m), w') →
  m = None.
Proof.
  by intros (r & raw & _ & -> & _)%compute_propensity_score_Return.
Qed.

(** *** The caller's model is used through its reference *)

Lemma same_objects_refl r w : same_objects r w w.
Proof. by split. Qed.

Lemma same_objects_trans r w1 w2 w3 :
  same_objects r w1 w2 → same_objects r w2 w3 → same_objects r w1 w3.
Proof.
  intros [D1 F1] [D2 F2]. split; [congruence|].
  intros r' Hr'. by rewrite F2, F1.
Qed.

Lemma same_objects_store r o o' e w :
  heap w !! r = Some o → same_objects r w (store r o' e w).
Proof.
  intros Hr. split; simpl.
  - apply dom_insert_lookup_L. by rewrite Hr.
  - intros r' Hr'. by rewrite lookup_insert_ne.
Qed.

Lemma getattr_inv r name w res w' :
  getattr r name w = (res, w') →
  w' = w ∧ ∀ o, res = Return o → heap w !! r = Some o ∧ hasattr o name = true.
Proof.
  unfold getattr. destruct (heap w !! r) as [o|] eqn:Hr.
  - destruct (hasattr o name) eqn:Ha; intros [= <- <-]; split; try done.
    by intros ? [= <-].
  - by intros [= <- <-].
Qed.

Lemma called_spec r name w :
  called r name w =
    (Return (), {| heap := heap w;
                   wenv := {| trace := trace (wenv w) ++ [Called r name];
                              random := random (wenv w) |} |}).
Proof. done. Qed.

(** Each call on [p_model] leaves every other object alone. *)
Lemma p_model_fit_same_objects r X y w res w' :
  p_model_fit r X y w = (res, w') → same_objects r w w'.
Proof.
  unfold p_model_fit, bind.
  destruct (getattr r "fit" w) as [[o|e] w1] eqn:Hget;
    apply getattr_inv in Hget as [-> Ho].
  - destruct (Ho o eq_refl) as [Hr _]. rewrite called_spec.
    destruct o as [c i|u].
    + unfold on_instance. simpl. destruct (self_fit c X y _) as [a [i' e']].
      intros [= <- <-]. by eapply (same_objects_store r _ _ _ (Build_world _ _)).
    + unfold on_foreign. simpl. destruct (foreign_fit u X y) as [a u'].
      intros [= <- <-]. by eapply (same_objects_store r _ _ _ (Build_world _ _)).
  - intros [= <- <-]. apply same_objects_refl.
Qed.

Lemma p_model_predict_same_objects r X w res w' :
  p_model_predict r X w = (res, w') → same_objects r w w'.
Proof.
  unfold p_model_predict, bind.
  destruct (getattr r "predict" w) as [[o|e] w1] eqn:Hget;
    apply getattr_inv in Hget as [-> Ho].
  - destruct (Ho o eq_refl) as [Hr _]. rewrite called_spec.
    destruct o as [c i|u].
    + unfold on_instance. simpl. destruct (self_predict c X _) as [a [i' e']].
      intros [= <- <-]. by eapply (same_objects_store r _ _ _ (Build_world _ _)).
    + unfold on_foreign. simpl. destruct (foreign_predict u X) as [a u'].
      intros [= <- <-]. by eapply (same_objects_store r _ _ _ (Build_world _ _)).
  - intros [= <- <-]. apply same_objects_refl.
Qed.

Lemma p_model_predict_proba_same_objects r X w res w' :
  p_model_predict_proba r X w = (res, w') → same_objects r w w'.
Proof.
  unfold p_model_predict_proba, bind.
  destruct (getattr r "predict_proba" w) as [[o|e] w1] eqn:Hget;
    apply getattr_inv in Hget as [-> Ho].
  - destruct (Ho o eq_refl) as [Hr _]. rewrite called_spec.
    destruct o as [c i|u].
    + intros [= <- <-]. by split.
    + unfold on_foreign. simpl. destruct (foreign_predict_proba u X) as [a u'].
      intros [= <- <-]. by eapply (same_objects_store r _ _ _ (Build_world _ _)).
  - intros [= <- <-]. apply same_objects_refl.
Qed.

Lemma getitem_column1_state {S} (P : np.ndarray2) (s : S) :
  snd (getitem_column1 P s) = s.
Proof. unfold getitem_column1. by destruct (np.column1 P). Qed.

Lemma predict_scores_same_objects r X w res w' :
  predict_scores r X w = (res, w') → same_objects r w w'.
Proof.
  unfold predict_scores, try_except_AttributeError, bind at 1.
  destruct (p_model_predict_proba r X w) as [[P|e] w1] eqn:Hproba;
    apply p_model_predict_proba_same_objects in Hproba.
  - pose proof (getitem_column1_state P w1) as Hst.
    destruct (getitem_column1 P w1) as [[col|[a|cls]] w2]; simpl in Hst; subst w2.
    + by intros [= <- <-].
    + unfold getitem_column1 in *. intros Hrun. eapply same_objects_trans; [done|].
      unfold bind in Hrun. simpl in Hrun.
      by apply p_model_predict_same_objects in Hrun.
    + by intros [= <- <-].
  - destruct e as [a|cls].
    + unfold bind. simpl. intros Hrun.
      apply p_model_predict_same_objects in Hrun.
      eapply same_objects_trans; [done|]. done.
    + by intros [= <- <-].
Qed.

(** C3: with [calibrate_p=False] and a model supplied by the caller, the
    second component of the result is the caller's reference itself: the
    object behind it was fitted in place, and no object was created, so it is
    neither a copy nor a substitute. *)
Theorem compute_propensity_score_same_model X treatment r X_pred treatment_pred
    w p m w' :
  compute_propensity_score X treatment (Some r) X_pred treatment_pred false w
    = (Return (p, m), w') →
  m = Some r ∧ is_Some (heap w' !! r) ∧ same_objects r w w'.
Proof.
  intros Hrun.
  destruct (compute_propensity_score_Return _ _ _ _ _ _ _ _ _ _ Hrun)
    as (r0 & raw & _ & -> & Hr0).
  rewrite (Hr0 r eq_refl). split; [done|].
  unfold compute_propensity_score in Hrun.
  apply bind_Return in Hrun as (r1 & w0 & Hnew & Hrun).
  unfold ret in Hnew. injection Hnew as <- <-.
  apply bind_Return in Hrun as ([] & w1 & Hfit & Hrun).
  apply bind_Return in Hrun as (p0 & w2 & Hpredict & Hrun).
  apply bind_Return in Hrun as ([p1 m1] & w3 & Hcal & Hrun).
  unfold ret in Hcal, Hrun. injection Hcal as <- <- <-. injection Hrun as <- <- <-.
  assert (same_objects r w w2) as Hsame.
  { eapply same_objects_trans.
    - by eapply p_model_fit_same_objects.
    - by eapply predict_scores_same_objects. }
  split; [|done].
  assert (is_Some (heap w !! r)) as Hlive.
  { unfold p_model_fit in Hfit.
    apply bind_Return in Hfit as (o & w0 & Hget & _).
    apply getattr_inv in Hget as [_ Ho]. destruct (Ho _ eq_refl) as [-> _]. eauto. }
  destruct Hsame as [Hdom _].
  apply elem_of_dom. rewrite Hdom. by apply elem_of_dom.
Qed.

End compute_propensity_score_facts.

(** ** Method resolution *)

Section resolution_facts.

Lemma mro_values :
  mro PropensityModel = [PropensityModel] ∧
  mro LogisticRegressionPropensityModel =
    [LogisticRegressionPropensityModel; PropensityModel] ∧
  mro ElasticNetPropensityModel =
    [ElasticNetPropensityModel; LogisticRegressionPropensityModel; PropensityModel] ∧
  mro GradientBoostedPropensityModel =
    [GradientBoostedPropensityModel; PropensityModel].
Proof. done. Qed.

Lemma resolve_fit c :
  resolve c "fit" =
    Some (match c with
          | GradientBoostedPropensityModel => GradientBoostedPropensityModel
          | _ => PropensityModel
          end).
Proof. by destruct c; vm_compute. Qed.

Lemma resolve_predict c :
  resolve c "predict" =
    Some (match c with
          | GradientBoostedPropensityModel => GradientBoostedPropensityModel
          | _ => PropensityModel
          end).
Proof. by destruct c; vm_compute. Qed.

(** No class body defines [predict_proba]. *)
Lemma resolve_predict_proba c : resolve c "predict_proba" = None.
Proof. by destruct c; vm_compute. Qed.

(** An empty class body adds nothing to what its base provides. *)
Lemma resolve_ElasticNet name :
  resolve ElasticNetPropensityModel name = resolve LogisticRegressionPropensityModel name.
Proof. done. Qed.

End resolution_facts.

(** ** predict: the clipped probability of class 1 *)

Section predict_facts.
Context `{Libraries}.

(** The column of class-1 probabilities the underlying classifier reports. *)
Lemma model_predict_proba_1_Return X i e a s' :
  model_predict_proba_1 X (i, e) = (Return a, s') →
  s' = (i, e) ∧
  ∃ P, estimator_predict_proba (est (model i)) (params (model i)) (learned (model i)) X
         = Return P ∧ np.column1 P = Some a.
Proof.
  unfold model_predict_proba_1, bind, get_self, lift, getitem_column1.
  destruct (estimator_predict_proba _ _ _ _) as [P|ex] eqn:HP; [|done].
  destruct (np.column1 P) as [col|] eqn:Hcol; [|done].
  intros [= <- <-]. split; [done|]. by exists P.
Qed.

Lemma PropensityModel_predict_Return X i e p s' :
  PropensityModel_predict X (i, e) = (Return p, s') →
  s' = (i, e) ∧
  ∃ a, model_predict_proba_1 X (i, e) = (Return a, (i, e)) ∧
       p = np.clip a (clip_bounds i).1 (clip_bounds i).2.
Proof.
  unfold PropensityModel_predict, bind at 1, get_self. intros Hrun.
  apply bind_Return in Hrun as (a & s1 & Ha & Hrun).
  destruct (model_predict_proba_1_Return _ _ _ _ _ Ha) as [-> _].
  unfold ret in Hrun. injection Hrun as <- <-. split; [done|]. by exists a.
Qed.

Lemma get_early_stop_eq i e :
  get_early_stop (i, e) =
    match early_stop i with
    | Some b => (Return b, (i, e))
    | None => (Raise (AttributeError "early_stop"), (i, e))
    end.
Proof. unfold get_early_stop, bind, get_self. by destruct (early_stop i). Qed.

(** The two branches of [GradientBoostedPropensityModel.predict]. *)
Lemma GradientBoostedPropensityModel_predict_eq X i e :
  GradientBoostedPropensityModel_predict GradientBoostedPropensityModel X (i, e) =
    match early_stop i with
    | Some _ => PropensityModel_predict X (i, e)
    | None => (Raise (AttributeError "early_stop"), (i, e))
    end.
Proof.
  unfold GradientBoostedPropensityModel_predict, bind at 1. rewrite get_early_stop_eq.
  by destruct (early_stop i) as [[]|].
Qed.

Lemma GradientBoostedPropensityModel_predict_Return X i e p s' :
  GradientBoostedPropensityModel_predict GradientBoostedPropensityModel X (i, e)
    = (Return p, s') →
  s' = (i, e) ∧
  ∃ a, model_predict_proba_1 X (i, e) = (Return a, (i, e)) ∧
       p = np.clip a (clip_bounds i).1 (clip_bounds i).2.
Proof.
  rewrite GradientBoostedPropensityModel_predict_eq.
  destruct (early_stop i); [|done]. apply PropensityModel_predict_Return.
Qed.

Lemma self_predict_Return c X i e p s' :
  self_predict c X (i, e) = (Return p, s') →
  s' = (i, e) ∧
  ∃ a, model_predict_proba_1 X (i, e) = (Return a, (i, e)) ∧
       p = np.clip a (clip_bounds i).1 (clip_bounds i).2.
Proof.
  unfold self_predict, call_method. rewrite resolve_predict.
  destruct c; simpl.
  - apply PropensityModel_predict_Return.
  - apply PropensityModel_predict_Return.
  - apply PropensityModel_predict_Return.
  - apply GradientBoostedPropensityModel_predict_Return.
Qed.

(** [fit] replaces what the classifier has learned and nothing else. *)
Lemma model_fit_attrs X y ev i e res i' e' :
  model_fit X y ev (i, e) = (res, (i', e')) →
  clip_bounds i' = clip_bounds i ∧ early_stop i' = early_stop i ∧
  model_kwargs i' = model_kwargs i ∧ est (model i') = est (model i) ∧
  params (model i') = params (model i) ∧ trace e' = trace e.
Proof.
  unfold model_fit, bind, get_self, lift, set_model.
  destruct (estimator_fit _ _ _ _ _) as [f|ex]; by intros [= <- <- <-].
Qed.

(** The two branches of [GradientBoostedPropensityModel.fit]. *)
Lemma GradientBoostedPropensityModel_fit_eq X y size i e :
  GradientBoostedPropensityModel_fit GradientBoostedPropensityModel X y size (i, e) =
    match early_stop i with
    | Some true =>
        (let! split := call_train_test_split X y size in
         let '(X_train, X_val, y_train, y_val) := split in
         model_fit X_train y_train [(X_val, y_val)]) (i, e)
    | Some false => PropensityModel_fit X y (i, e)
    | None => (Raise (AttributeError "early_stop"), (i, e))
    end.
Proof.
  unfold GradientBoostedPropensityModel_fit, bind at 1. rewrite get_early_stop_eq.
  by destruct (early_stop i) as [[]|].
Qed.

Lemma self_fit_attrs c X y i e res i' e' :
  self_fit c X y (i, e) = (res, (i', e')) →
  clip_bounds i' = clip_bounds i ∧ early_stop i' = early_stop i ∧
  model_kwargs i' = model_kwargs i ∧ est (model i') = est (model i) ∧
  params (model i') = params (model i) ∧ trace e' = trace e.
Proof.
  unfold self_fit, call_method. rewrite resolve_fit.
  destruct c; simpl; try apply model_fit_attrs.
  rewrite GradientBoostedPropensityModel_fit_eq.
  destruct (early_stop i) as [[]|] eqn:Hes.
  - unfold bind, call_train_test_split.
    destruct (train_test_split X y _ (random e)) as [[[[[X1 X2] y1] y2]|ex] g].
    + intros Hfit. apply model_fit_attrs in Hfit. simpl in Hfit. by rewrite Hes in Hfit.
    + intros [= <- <- <-]. by rewrite Hes.
  - rewrite <- Hes. apply model_fit_attrs.
  - intros [= <- <- <-]. by rewrite Hes.
Qed.

Lemma clip1_nan x lo hi :
  is_nan x = true → is_nan lo = false → is_nan hi = false → np.clip1 x lo hi = x.
Proof.
  intros Hx Hlo Hhi. unfold np.clip1, np.maximum, np.minimum. by rewrite Hx, Hhi, Hx.
Qed.

Lemma clip1_number_within x lo hi :
  (lo <=? hi)%float = true →
  is_nan (np.clip1 x lo hi) = false →
  within_closed lo hi (np.clip1 x lo hi) = true.
Proof.
  intros Hle Hnum. destruct (leb_not_nan _ _ Hle) as [Hlo Hhi].
  destruct (is_nan x) eqn:Hx.
  - rewrite clip1_nan in Hnum by done. congruence.
  - by apply clip1_within.
Qed.


End predict_facts.

(** ** The classes: alias, branches of predict, construction options *)

Section class_facts.
Context `{Libraries}.

(** C6: [ElasticNetPropensityModel] behaves as
    [LogisticRegressionPropensityModel]: every attribute resolves to the same
    class body, construction from the same arguments builds the same object
    (the same clip bounds, options and classifier configuration), and [fit],
    [predict], [fit_predict] and [__repr__] give the same outcome and leave
    the same state when started from the same state (hence the same data,
    options and seed). *)
Theorem ElasticNet_alias :
  (∀ name, resolve ElasticNetPropensityModel name
           = resolve LogisticRegressionPropensityModel name) ∧
  (∀ early_stop clip_bounds model_kwargs,
     instantiate ElasticNetPropensityModel early_stop clip_bounds model_kwargs
     = instantiate LogisticRegressionPropensityModel early_stop clip_bounds model_kwargs) ∧
  (∀ X y s, self_fit ElasticNetPropensityModel X y s
            = self_fit LogisticRegressionPropensityModel X y s) ∧
  (∀ X s, self_predict ElasticNetPropensityModel X s
          = self_predict LogisticRegressionPropensityModel X s) ∧
  (∀ X y s, self_fit_predict ElasticNetPropensityModel X y s
            = self_fit_predict LogisticRegressionPropensityModel X y s) ∧
  (∀ s, self___repr__ ElasticNetPropensityModel s
        = self___repr__ LogisticRegressionPropensityModel s).
Proof.
  split; [apply resolve_ElasticNet|].
  split.
  { intros es cb mk. unfold instantiate, is_abstract.
    rewrite !resolve_ElasticNet.
    unfold PropensityModel___init__, GradientBoostedPropensityModel___init__, self__model.
    by rewrite !resolve_ElasticNet. }
  split.
  { intros X y s. unfold self_fit. by rewrite resolve_ElasticNet, !resolve_fit. }
  split.
  { intros X s. unfold self_predict. by rewrite resolve_ElasticNet, !resolve_predict. }
  split.
  { intros X y s. unfold self_fit_predict. rewrite resolve_ElasticNet.
    unfold call_method. by destruct (resolve _ "fit_predict") as [[]|]. }
  intros s. unfold self___repr__. by rewrite resolve_ElasticNet.
Qed.

(** The value [predict] computes from what the classifier reports: column 1
    of [predict_proba(X)], clipped to the bounds. *)
Lemma PropensityModel_predict_value X i e :
  fst (PropensityModel_predict X (i, e)) =
    match estimator_predict_proba (est (model i)) (params (model i)) (learned (model i)) X with
    | Return P =>
        match np.column1 P with
        | Some a => Return (np.clip a (clip_bounds i).1 (clip_bounds i).2)
        | None => Raise (Exception "IndexError")
        end
    | Raise ex => Raise ex
    end.
Proof.
  unfold PropensityModel_predict, model_predict_proba_1, bind, get_self, lift,
    getitem_column1.
  destruct (estimator_predict_proba _ _ _ _) as [P|ex]; [|done].
  by destruct (np.column1 P).
Qed.

(** C7: on a [GradientBoostedPropensityModel], [predict] with
    [early_stop=True] is the base-class [predict] — as is [predict] with
    [early_stop=False] — and both branches return column 1 of the
    classifier's [predict_proba(X)] clipped to [clip_bounds]: an expression in
    which [early_stop] does not occur. *)
Theorem GradientBoosted_predict_branches clip_bounds model_kwargs model e X :
  let self b :=
    {| clip_bounds := clip_bounds; model_kwargs := model_kwargs;
       model := model; early_stop := Some b |} in
  (∀ b, GradientBoostedPropensityModel_predict GradientBoostedPropensityModel X (self b, e)
        = PropensityModel_predict X (self b, e)) ∧
  (∀ b, fst (GradientBoostedPropensityModel_predict GradientBoostedPropensityModel X
               (self b, e)) =
        match estimator_predict_proba (est model) (params model) (learned model) X with
        | Return P =>
            match np.column1 P with
            | Some a => Return (np.clip a clip_bounds.1 clip_bounds.2)
            | None => Raise (Exception "IndexError")
            end
        | Raise ex => Raise ex
        end).
Proof.
  intros self. split; intros b.
  - by rewrite GradientBoostedPropensityModel_predict_eq.
  - rewrite GradientBoostedPropensityModel_predict_eq. simpl.
    by rewrite PropensityModel_predict_value.
Qed.

End class_facts.

(** ** Construction of the logistic-regression model *)

Section construction_facts.
Context `{Libraries}.


Lemma instantiate_LogisticRegression c clip_bounds mk :
  c = LogisticRegressionPropensityModel ∨ c = ElasticNetPropensityModel →
  instantiate c None clip_bounds mk =
    Return {| clip_bounds := default default_clip_bounds clip_bounds;
              model_kwargs := (LogisticRegressionPropensityModel__model mk).2;
              model := (LogisticRegressionPropensityModel__model mk).1;
              early_stop := None |}.
Proof.
  intros [-> | ->]; unfold instantiate, is_abstract, PropensityModel___init__, self__model;
    rewrite ?resolve_ElasticNet;
    change (resolve LogisticRegressionPropensityModel "_model")
      with (Some LogisticRegressionPropensityModel);
    change (resolve LogisticRegressionPropensityModel "__init__")
      with (Some PropensityModel);
    simpl; by destruct (LogisticRegressionPropensityModel__model mk).
Qed.


End construction_facts.

(** ** The try block of compute_propensity_score *)

Section fallback_facts.
Context `{Libraries} `{ForeignModels}.

Lemma hasattr_Instance_predict_proba c i :
  hasattr (Instance c i) "predict_proba" = false.
Proof.
  unfold hasattr, instance_attrs. rewrite resolve_predict_proba.
  by destruct (early_stop i).
Qed.

(** Without the attribute the lookup raises before anything is called. *)
Lemma p_model_predict_proba_missing r X w o :
  heap w !! r = Some o → hasattr o "predict_proba" = false →
  p_model_predict_proba r X w = (Raise (AttributeError "predict_proba"), w).
Proof.
  intros Hr Ha. unfold p_model_predict_proba, bind, getattr. by rewrite Hr, Ha.
Qed.

(** The handler runs exactly when the try block raises [AttributeError]. *)
Lemma predict_scores_eq r X w :
  predict_scores r X w =
    match (let! P := p_model_predict_proba r X in getitem_column1 P) w with
    | (Return p, w1) => (Return p, w1)
    | (Raise (AttributeError _), w1) =>
        (let! _ := world_info fallback_message in p_model_predict r X) w1
    | (Raise (Exception cls), w1) => (Raise (Exception cls), w1)
    end.
Proof.
  unfold predict_scores, try_except_AttributeError.
  by destruct (bind _ _ w) as [[p|[a|cls]] w1].
Qed.

Lemma p_model_predict_trace r X w v w' :
  p_model_predict r X w = (Return v, w') →
  trace (wenv w') = (trace (wenv w) ++ [Called r "predict"])%list.
Proof.
  unfold p_model_predict. intros Hrun.
  apply bind_Return in Hrun as (o & w0 & Hget & Hrun).
  apply getattr_inv in Hget as [-> _].
  rewrite (bind_step _ _ _ _ _ (called_spec r "predict" w)) in Hrun.
  destruct o as [c i|u].
  - unfold on_instance in Hrun. cbn [wenv] in Hrun.
    destruct (self_predict c X _) as [a [i' e']] eqn:Hp.
    injection Hrun as -> <-.
    apply self_predict_Return in Hp as (Hs & _). by injection Hs as -> ->.
  - unfold on_foreign in Hrun. destruct (foreign_predict u X) as [a u'].
    by injection Hrun as -> <-.
Qed.

Lemma p_model_fit_Instance r X y w w' c i :
  heap w !! r = Some (Instance c i) →
  p_model_fit r X y w = (Return (), w') →
  ∃ i', heap w' !! r = Some (Instance c i') ∧
        clip_bounds i' = clip_bounds i ∧ early_stop i' = early_stop i ∧
        est (model i') = est (model i) ∧ params (model i') = params (model i).
Proof.
  intros Hr Hrun. unfold p_model_fit in Hrun.
  apply bind_Return in Hrun as (o & w0 & Hget & Hrun).
  apply getattr_inv in Hget as [-> Ho]. destruct (Ho _ eq_refl) as [Ho' _].
  rewrite Hr in Ho'. injection Ho' as <-.
  rewrite (bind_step _ _ _ _ _ (called_spec r "fit" w)) in Hrun.
  unfold on_instance in Hrun. cbn [wenv] in Hrun.
  destruct (self_fit c X y _) as [a [i' e']] eqn:Hfit.
  injection Hrun as -> <-. exists i'.
  apply self_fit_attrs in Hfit as (Hcb & Hes & _ & Hest & Hparams & _).
  split; [|done]. simpl. apply lookup_insert_eq.
Qed.

Lemma p_model_predict_Instance r X w p w' c i :
  heap w !! r = Some (Instance c i) →
  p_model_predict r X w = (Return p, w') →
  ∃ P a,
    estimator_predict_proba (est (model i)) (params (model i)) (learned (model i)) X
      = Return P ∧
    np.column1 P = Some a ∧
    p = np.clip a (clip_bounds i).1 (clip_bounds i).2.
Proof.
  intros Hr Hrun. unfold p_model_predict in Hrun.
  apply bind_Return in Hrun as (o & w0 & Hget & Hrun).
  apply getattr_inv in Hget as [-> Ho]. destruct (Ho _ eq_refl) as [Ho' _].
  rewrite Hr in Ho'. injection Ho' as <-.
  rewrite (bind_step _ _ _ _ _ (called_spec r "predict" w)) in Hrun.
  unfold on_instance in Hrun. cbn [wenv] in Hrun.
  destruct (self_predict c X _) as [a [i' e']] eqn:Hp.
  injection Hrun as -> <-.
  apply self_predict_Return in Hp as (_ & col & Hcol & ->).
  apply model_predict_proba_1_Return in Hcol as (_ & P & HP & Hcol).
  by exists P, col.
Qed.

Lemma compute_propensity_score_after_predict X treatment r X_pred treatment_pred
    calibrate_p w w1 v w3 :
  p_model_fit r X treatment w = (Return (), w1) →
  predict_scores r (default X X_pred) w1 = (Return v, w3) →
  compute_propensity_score X treatment (Some r) X_pred treatment_pred calibrate_p w =
    if calibrate_p then
      match calibrate v (default treatment treatment_pred) with
      | Return p' =>
          (Return (force_within_range p', None), (world_info calibrating_message w3).2)
      | Raise ex => (Raise ex, (world_info calibrating_message w3).2)
      end
    else (Return (force_within_range v, Some r), w3).
Proof.
  intros Hfit Hpredict. unfold compute_propensity_score.
  rewrite (bind_step _ _ w r w) by done.
  rewrite (bind_step _ _ _ _ _ Hfit).
  replace (match X_pred with Some X' => X' | None => X end) with (default X X_pred)
    by by destruct X_pred.
  rewrite (bind_step _ _ _ _ _ Hpredict).
  replace (match treatment_pred with Some t => t | None => treatment end)
    with (default treatment treatment_pred) by by destruct treatment_pred.
  destruct calibrate_p; [|done].
  unfold bind, world_info, logger_info, lift, ret. simpl.
  by destruct (calibrate v _).
Qed.


(** Values inside the default clip bounds are neither of the hard labels. *)
Lemma default_bounds_not_labels x :
  within_closed default_clip_bounds.1 default_clip_bounds.2 x = true →
  (x =? 0)%float = false ∧ (x =? 1)%float = false.
Proof.
  unfold within_closed. intros [Hlo Hhi]%andb_true_iff.
  rewrite FloatAxioms.leb_spec in Hlo, Hhi. rewrite !FloatAxioms.eqb_spec.
  change (Prim2SF default_clip_bounds.1)
    with (S754_finite false 4611686018427388 (-62)) in Hlo.
  change (Prim2SF default_clip_bounds.2)
    with (S754_finite false 8998192055486251 (-53)) in Hhi.
  change (Prim2SF 0) with (S754_zero false).
  change (Prim2SF 1) with (S754_finite false 4503599627370496 (-52)).
  unfold SFleb, SFeqb in *.
  destruct (Prim2SF x) as [b|b| |b m e]; try done.
  - by destruct b.
  - destruct b; cbn [SFcompare] in *; [done|]. split; [done|].
    destruct (Z.compare_spec e (-52)) as [E|E|E]; try done.
    subst e. by vm_compute in Hhi.
Qed.

(** C10: with [p_model=None], [compute_propensity_score] runs on a new
    [ElasticNetPropensityModel] with the default clip bounds.  Once [fit] has
    returned, the attempt [p_model.predict_proba] raises [AttributeError] —
    no class of the module defines [predict_proba] — before anything is
    called, so the prediction step is the fallback: the diagnostic message,
    then [PropensityModel.predict].  The scores it yields are column 1 of the
    probabilities the [LogisticRegressionCV] reports, clipped to
    (1e-3, 1 - 1e-3): every one that is a number lies between the two bounds,
    so none is the label 0 or 1. *)
Theorem default_model_takes_fallback X treatment X_pred treatment_pred calibrate_p w :
  let r := fresh (dom (heap w)) in
  let X' := default X X_pred in
  ∃ i w0,
    new_ElasticNetPropensityModel w = (Return r, w0) ∧
    compute_propensity_score X treatment None X_pred treatment_pred calibrate_p w
      = compute_propensity_score X treatment (Some r) X_pred treatment_pred calibrate_p w0 ∧
    heap w0 !! r = Some (Instance ElasticNetPropensityModel i) ∧
    clip_bounds i = (1e-3, 1 - 1e-3)%float ∧
    ∀ w1, p_model_fit r X treatment w0 = (Return (), w1) →
      p_model_predict_proba r X' w1 = (Raise (AttributeError "predict_proba"), w1) ∧
      predict_scores r X' w1
        = (let! _ := world_info fallback_message in p_model_predict r X') w1 ∧
      ∀ p w2, predict_scores r X' w1 = (Return p, w2) →
        (∃ i1 P a,
           heap w1 !! r = Some (Instance ElasticNetPropensityModel i1) ∧
           estimator_predict_proba LogisticRegressionCV (params (model i1))
             (learned (model i1)) X' = Return P ∧
           np.column1 P = Some a ∧
           p = np.clip a 1e-3 (1 - 1e-3)) ∧
        Forall (fun x => is_nan x = false →
                         within_closed 1e-3 (1 - 1e-3) x = true ∧
                         (x =? 0)%float = false ∧ (x =? 1)%float = false) p.
Proof.
  intros r X'.
  pose proof (instantiate_LogisticRegression ElasticNetPropensityModel None ∅
                (or_intror eq_refl)) as Hnew.
  set (i0 := {| clip_bounds := default default_clip_bounds None;
                model_kwargs := (LogisticRegressionPropensityModel__model ∅).2;
                model := (LogisticRegressionPropensityModel__model ∅).1;
                early_stop := None |}) in Hnew.
  set (w0 := store r (Instance ElasticNetPropensityModel i0) (wenv w) w).
  assert (new_ElasticNetPropensityModel w = (Return r, w0)) as Hobj.
  { unfold new_ElasticNetPropensityModel, bind, lift. by rewrite Hnew. }
  exists i0, w0. split; [done|]. split.
  { unfold compute_propensity_score.
    by rewrite (bind_step _ _ w r w0 Hobj), (bind_step _ _ w0 r w0). }
  split; [apply lookup_insert_eq|]. split; [done|].
  intros w1 Hfit.
  destruct (p_model_fit_Instance r X treatment w0 w1 _ i0 (lookup_insert_eq _ _ _) Hfit)
    as (i1 & Hr1 & Hcb & _ & Hest & _).
  assert (p_model_predict_proba r X' w1 = (Raise (AttributeError "predict_proba"), w1))
    as Hattempt.
  { eapply p_model_predict_proba_missing; [done|]. apply hasattr_Instance_predict_proba. }
  split; [done|].
  assert (predict_scores r X' w1
          = (let! _ := world_info fallback_message in p_model_predict r X') w1) as Hscores.
  { rewrite predict_scores_eq. by rewrite (bind_Raise _ _ _ _ _ Hattempt). }
  split; [done|].
  intros p w2 Hp. rewrite Hscores in Hp.
  apply bind_Return in Hp as ([] & w1' & Hlog & Hp).
  injection Hlog as <-.
  eapply p_model_predict_Instance in Hp as (P & a & HP & Hcol & ->); [|exact Hr1].
  rewrite Hest in HP. change (est (model i0)) with LogisticRegressionCV in HP.
  rewrite Hcb. change (clip_bounds i0) with default_clip_bounds.
  split; [by exists i1, P, a|].
  unfold np.clip. apply Forall_map, Forall_forall. intros x _ Hnum.
  assert (within_closed default_clip_bounds.1 default_clip_bounds.2
            (np.clip1 x default_clip_bounds.1 default_clip_bounds.2) = true) as Hin.
  { by apply clip1_number_within. }
  split; [done|]. by apply default_bounds_not_labels.
Qed.

End fallback_facts.

(** ** The modelled isotonic regression: bounds and monotonicity *)

Section isotonic_facts.
Import Isotonic.
#[local] Open Scope Q_scope.

Lemma covers_spec x b : covers x b = true ↔ first b <= x ∧ x <= last b.
Proof.
  unfold covers. rewrite andb_true_iff, !Qle_bool_iff. done.
Qed.

(** *** Grouping the scores *)


Lemma add_point_Forall (P : block → Prop) x y gs :
  P (point x y) → (∀ g, P g → P (absorb g y)) →
  Forall P gs → Forall P (add_point x y gs).
Proof.
  intros Hp Ha. induction 1 as [|g gs Hg Hgs IH]; simpl.
  - by constructor.
  - destruct (Qlt_le_dec x (first g)); [by repeat constructor|].
    destruct (Qlt_le_dec (first g) x); constructor; auto.
Qed.

Lemma add_point_sorted x y gs :
  StronglySorted before gs → Forall single gs →
  StronglySorted before (add_point x y gs) ∧ Forall single (add_point x y gs).
Proof.
  intros Hs Hsingle. split.
  2:{ apply add_point_Forall; [done| |done]. by intros g. }
  induction Hs as [|g gs Hs IH Hg]; simpl.
  - repeat constructor.
  - apply Forall_cons in Hsingle as [Hg1 Hgs1].
    destruct (Qlt_le_dec x (first g)) as [Hlt|Hge].
    + constructor; [by constructor|]. constructor.
      * unfold before. simpl. done.
      * eapply Forall_impl; [exact Hg|]. unfold before, single in *. simpl.
        intros g' Hg'. lra.
    + destruct (Qlt_le_dec (first g) x) as [Hlt|Hle].
      * constructor; [by apply IH|].
        apply add_point_Forall; [| |done].
        -- unfold before, single in *. simpl. lra.
        -- by intros g'.
      * constructor; [done|]. done.
Qed.

Lemma add_point_covers x y gs :
  Forall single gs →
  Exists (fun g => covers x g = true) (add_point x y gs) ∧
  ∀ x', Exists (fun g => covers x' g = true) gs →
        Exists (fun g => covers x' g = true) (add_point x y gs).
Proof.
  induction 1 as [|g gs Hg Hgs [IH1 IH2]]; simpl.
  - split; [|by inversion 1]. constructor. apply covers_spec. simpl. lra.
  - destruct (Qlt_le_dec x (first g)) as [Hlt|Hge].
    + split; [|by constructor 2]. constructor. apply covers_spec. simpl. lra.
    + destruct (Qlt_le_dec (first g) x) as [Hlt|Hle].
      * split; [by constructor 2|].
        intros x' [Hx'|Hx']%Exists_cons; [by constructor|]. constructor 2. auto.
      * split.
        -- constructor. apply covers_spec. unfold single in Hg. simpl. lra.
        -- intros x' [Hx'|Hx']%Exists_cons; [|by constructor 2].
           constructor. done.
Qed.

Lemma groups_spec X y :
  length X = length y →
  StronglySorted before (groups X y) ∧ Forall single (groups X y) ∧
  Forall (fun x => Exists (fun g => covers x g = true) (groups X y)) X.
Proof.
  revert y. induction X as [|x X IH]; intros [|y0 y] Hlen; simplify_eq/=.
  - repeat constructor.
  - destruct (IH y Hlen) as (Hs & Hsingle & Hcov).
    unfold groups. simpl. fold (groups X y).
    destruct (add_point_sorted x y0 _ Hs Hsingle) as [Hs' Hsingle'].
    destruct (add_point_covers x y0 _ Hsingle) as [Hx Hkeep].
    split; [done|]. split; [done|]. constructor; [done|].
    eapply Forall_impl; [exact Hcov|]. intros x'. apply Hkeep.
Qed.

(** *** Pooling adjacent violators *)


Lemma push_spec b stack :
  wf b → Forall (fun o => before o b) stack → stack_ok stack →
  stack_ok (push b stack) ∧
  Forall (fun o => last o <= last b) (push b stack) ∧
  ∀ x, covers x b = true ∨ Exists (fun o => covers x o = true) stack →
       Exists (fun o => covers x o = true) (push b stack).
Proof.
  revert b. induction stack as [|t rest IH]; intros b Hb Hbefore [Hs Hwf]; simpl.
  - split; [split; repeat constructor; done|]. split.
    + repeat constructor. lra.
    + intros x [Hx|Hx]; [by constructor|by inversion Hx].
  - apply Forall_cons in Hbefore as [Htb Hrest].
    apply Forall_cons in Hwf as [Ht Hwf].
    apply StronglySorted_inv in Hs as [Hs Hbelow].
    destruct (Qlt_le_dec (value b) (value t)) as [Hviol|Hok].
    + destruct (IH (pool t b)) as (Hok' & Hlast & Hcov).
      * unfold wf, before in *. simpl. lra.
      * eapply Forall_impl; [exact Hbelow|]. by intros o [Ho _].
      * done.
      * split; [done|]. split; [done|].
        intros x Hx. apply Hcov.
        destruct Hx as [Hx|[Hx|Hx]%Exists_cons]; [left|left|by right];
          apply covers_spec in Hx; apply covers_spec;
          unfold wf, before in *; simpl; lra.
    + split; [split|split].
      * constructor; [by constructor|]. constructor; [by split|].
        apply Forall_forall. intros o Ho.
        rewrite Forall_forall in Hbelow, Hrest.
        destruct (Hbelow o Ho) as [_ Hv]. split; [by apply Hrest|]. lra.
      * by repeat constructor.
      * constructor; [lra|]. constructor; [unfold before, wf in *; lra|].
        eapply Forall_impl; [exact Hrest|]. unfold before, wf in *. intros o Ho. lra.
      * intros x [Hx|Hx]; [by constructor|by constructor 2].
Qed.

Lemma pava_spec gs stack :
  stack_ok stack → StronglySorted before gs → Forall wf gs →
  Forall (fun o => Forall (before o) gs) stack →
  let blocks := foldl (fun stack g => push g stack) stack gs in
  stack_ok blocks ∧
  ∀ x, Exists (fun o => covers x o = true) stack ∨
       Exists (fun g => covers x g = true) gs →
       Exists (fun o => covers x o = true) blocks.
Proof.
  revert stack. induction gs as [|g gs IH]; intros stack Hok Hs Hwf Hbefore; simpl.
  - split; [done|]. intros x [Hx|Hx]; [done|by inversion Hx].
  - apply StronglySorted_inv in Hs as [Hs Hg].
    apply Forall_cons in Hwf as [Hgwf Hwf].
    destruct (push_spec g stack) as (Hok' & Hlast & Hcov); [done| |done|].
    { eapply Forall_impl; [exact Hbefore|]. intros o Ho. by apply Forall_cons in Ho as [? _]. }
    destruct (IH (push g stack)) as [Hok'' Hcov'']; [done..| |].
    { eapply Forall_impl; [exact Hlast|]. intros o Ho.
      eapply Forall_impl; [exact Hg|]. intros g' Hg'. unfold before in *. lra. }
    split; [done|]. intros x Hx. apply Hcov''.
    destruct Hx as [Hx|[Hx|Hx]%Exists_cons]; [left; apply Hcov; by right|left; apply Hcov; by left|by right].
Qed.

(** *** Reading the fitted values *)

Lemma isotonic_clip_bounds y_min y_max v :
  y_min <= y_max → y_min <= clip y_min y_max v ∧ clip y_min y_max v <= y_max.
Proof.
  intros Hle. unfold clip.
  destruct (Qlt_le_dec v y_min); [lra|]. destruct (Qlt_le_dec y_max v); lra.
Qed.

Lemma isotonic_clip_mono y_min y_max v v' :
  y_min <= y_max → v <= v' → clip y_min y_max v <= clip y_min y_max v'.
Proof.
  intros Hle Hv. unfold clip.
  destruct (Qlt_le_dec v y_min), (Qlt_le_dec v' y_min); try lra;
    destruct (Qlt_le_dec y_max v), (Qlt_le_dec y_max v'); lra.
Qed.

Lemma find_covers_mono blocks x x' b b' :
  stack_ok blocks → x <= x' →
  List.find (covers x) blocks = Some b → List.find (covers x') blocks = Some b' →
  value b <= value b'.
Proof.
  intros [Hs Hwf] Hx. induction Hs as [|t rest Hs IH Ht]; simpl; [done|].
  apply Forall_cons in Hwf as [Htwf Hwf].
  destruct (covers x t) eqn:Hc, (covers x' t) eqn:Hc'.
  - intros [= <-] [= <-]. lra.
  - intros [= <-] Hfind. apply find_some in Hfind as [Hin Hb'].
    rewrite Forall_forall in Ht. destruct (Ht b') as [Hbefore _]; [by apply list_elem_of_In|].
    apply covers_spec in Hc, Hb'. unfold before in *. lra.
  - intros Hfind [= <-]. apply find_some in Hfind as [Hin Hb].
    rewrite Forall_forall in Ht. destruct (Ht b) as [_ Hv]; [by apply list_elem_of_In|]. done.
  - by apply IH.
Qed.

Lemma transform_spec y_min y_max blocks x x' :
  y_min <= y_max → stack_ok blocks →
  Exists (fun o => covers x o = true) blocks →
  Exists (fun o => covers x' o = true) blocks →
  (y_min <= transform y_min y_max blocks x ∧ transform y_min y_max blocks x <= y_max) ∧
  (x <= x' → transform y_min y_max blocks x <= transform y_min y_max blocks x').
Proof.
  intros Hle Hok Hx Hx'. unfold transform. split.
  - destruct (List.find (covers x) blocks); [by apply isotonic_clip_bounds|lra].
  - intros Hxx'.
    destruct (List.find (covers x) blocks) as [b|] eqn:Hb.
    2:{ apply Exists_exists in Hx as (o & Ho & Hc).
        eapply find_none in Hb; [|by apply list_elem_of_In]. congruence. }
    destruct (List.find (covers x') blocks) as [b'|] eqn:Hb'.
    2:{ apply Exists_exists in Hx' as (o & Ho & Hc).
        eapply find_none in Hb'; [|by apply list_elem_of_In]. congruence. }
    apply isotonic_clip_mono; [done|]. by eapply find_covers_mono.
Qed.

Lemma single_wf gs : Forall single gs → Forall wf gs.
Proof. intros H. eapply Forall_impl; [exact H|]. unfold single, wf. intros g Hg. lra. Qed.

Lemma fit_transform_spec y_min y_max X y :
  y_min <= y_max → length X = length y →
  ∃ out, fit_transform y_min y_max X y = Some out ∧
    length out = length X ∧
    Forall (fun v => y_min <= v ∧ v <= y_max) out ∧
    ∀ i j x x' v v',
      X !! i = Some x → X !! j = Some x' →
      out !! i = Some v → out !! j = Some v' →
      x <= x' → v <= v'.
Proof.
  intros Hle Hlen. unfold fit_transform. rewrite decide_True by done.
  eexists. split; [done|].
  destruct (groups_spec X y Hlen) as (Hs & Hsingle & Hcov).
  destruct (pava_spec (groups X y) []) as [Hok Hcovered];
    [by split; constructor|done|by apply single_wf|by constructor|].
  fold (pava (groups X y)) in Hok, Hcovered.
  assert (Forall (fun x => Exists (fun o => covers x o = true) (pava (groups X y))) X)
    as Hall.
  { eapply Forall_impl; [exact Hcov|]. intros x Hx. apply Hcovered. by right. }
  rewrite Forall_forall in Hall.
  split; [by rewrite length_map|]. split.
  - apply Forall_map, Forall_forall. intros x Hx.
    by apply (transform_spec y_min y_max _ x x); auto.
  - intros i j x x' v v' Hi Hj Hv Hv' Hxx'.
    rewrite list_lookup_fmap, Hi in Hv. rewrite list_lookup_fmap, Hj in Hv'.
    simplify_eq/=.
    apply (transform_spec y_min y_max _ x x'); auto.
    + apply Hall. by eapply list_elem_of_lookup_2.
    + apply Hall. by eapply list_elem_of_lookup_2.
Qed.

(** C5, on the regression modelled from the specification: for a score
    vector and a treatment vector of equal length, [calibrate] returns an
    array of that length whose every value lies in [[2 eps, 1 - 2 eps]], and
    the output is non-decreasing in the score: whenever [ps[i] <= ps[j]], the
    output at [i] is at most the output at [j]. *)
Theorem calibrate_bounds_monotone (ps : list Q) (treatment : labels) :
  length ps = length treatment →
  ∃ out, Isotonic.calibrate ps treatment = Some out ∧
    length out = length ps ∧
    Forall (fun v => 2 * eps <= v ∧ v <= 1 - 2 * eps) out ∧
    ∀ i j x x' v v',
      ps !! i = Some x → ps !! j = Some x' →
      out !! i = Some v → out !! j = Some v' →
      x <= x' → v <= v'.
Proof.
  intros Hlen. unfold Isotonic.calibrate. cbv zeta.
  apply fit_transform_spec.
  - unfold eps. lra.
  - by rewrite length_map.
Qed.

End isotonic_facts.

(** ** Closed examples on the stand-in libraries *)

Section clamp_examples.
Import Toy.

Let features : np.ndarray2 := [[0.5]; [0.0005]; [1]]%float.
Let treatment : labels := [1; 0; 1]%Z.



(** C2, witness: a calibrated run on the caller's model. *)
Lemma compute_propensity_score_calibrated_None_witness :
  let run := @compute_propensity_score libs models features treatment
               (Some 1%positive) None None true (world_with soft) in
  let two_eps := (2.0 * np.finfo_eps)%float in
  run = (Return ([0.75; two_eps; 1.0 - two_eps]%float, None), run.2) ∧
  @None positive = None.
Proof.
  assert (let run := @compute_propensity_score libs models features treatment
                       (Some 1%positive) None None true (world_with soft) in
          let two_eps := (2.0 * np.finfo_eps)%float in
          run = (Return ([0.75; two_eps; 1.0 - two_eps]%float, None), run.2))
    as Hrun by by vm_compute.
  split; [exact Hrun|].
  exact (@compute_propensity_score_calibrated_None libs models _ _ _ _ _ _ _ _ _ Hrun).
Defined.

(** C3, witness: an uncalibrated run returns reference 1, the caller's. *)
Lemma compute_propensity_score_same_model_witness :
  let w := world_with soft in
  let run := @compute_propensity_score libs models features treatment
               (Some 1%positive) None None false w in
  run = (Return ([0.75%float; clamp_low_value; clamp_high_value], Some 1%positive), run.2) ∧
  Some 1%positive = Some 1%positive ∧
  is_Some (heap run.2 !! 1%positive) ∧ same_objects 1%positive w run.2.
Proof.
  assert (let run := @compute_propensity_score libs models features treatment
                       (Some 1%positive) None None false (world_with soft) in
          run = (Return ([0.75%float; clamp_low_value; clamp_high_value],
                         Some 1%positive), run.2)) as Hrun by by vm_compute.
  split; [exact Hrun|].
  exact (@compute_propensity_score_same_model libs models _ _ _ _ _ _ _ _ _ Hrun).
Defined.

End clamp_examples.

Section clip_examples.
Import Toy.

Let features : np.ndarray2 := [[0.5]; [0.0005]; [1]]%float.
Let treatment : labels := [1; 0; 1]%Z.




End clip_examples.

Section fallback_examples.
Import Toy.

Let features : np.ndarray2 := [[0.5]; [0.0005]; [1]]%float.
Let treatment : labels := [1; 0; 1]%Z.



(** C10, witness: the default run, uncalibrated.  The new model is at
    reference 1; the records are the call of [fit], the diagnostic message
    and the call of [predict]; the scores are the clipped probabilities. *)
Lemma default_model_takes_fallback_witness :
  let run := @compute_propensity_score libs models features treatment
               None None None false empty_world in
  run.1 = Return ([0.5; 1e-3; 1 - 1e-3]%float, Some 1%positive) ∧
  trace (wenv run.2)
  = [Called 1%positive "fit"; Info fallback_message; Called 1%positive "predict"] ∧
  ∃ a, np.column1 (map proba_row features) = Some a ∧
       [0.5; 1e-3; 1 - 1e-3]%float = np.clip a 1e-3 (1 - 1e-3).
Proof.
  intros run. split; [by vm_compute|]. split; [by vm_compute|].
  destruct (@default_model_takes_fallback libs models features treatment
              None None false empty_world) as (i & w0 & Hnew & _ & _ & _ & Hafter).
  destruct (Hafter (@p_model_fit libs models 1%positive features treatment w0).2)
    as (_ & _ & Hscores).
  { injection Hnew as <-. by vm_compute. }
  destruct (Hscores [0.5; 1e-3; 1 - 1e-3]%float
              (@predict_scores libs models 1%positive features
                 (@p_model_fit libs models 1%positive features treatment w0).2).2)
    as [(i1 & P & a & _ & HP & Hcol & Hclip) _].
  { injection Hnew as <-. by vm_compute. }
  exists a. split; [|exact Hclip].
  rewrite <- Hcol. f_equal. simpl in HP.
  destruct (learned (model i1)); [by injection HP as <-|done].
Defined.

End fallback_examples.

Section isotonic_examples.
#[local] Open Scope Q_scope.

Let ps : list Q := [1 # 10; 4 # 10; 35 # 100; 8 # 10; 4 # 10].
Let treatment : labels := [1; 1; 0; 1; 0]%Z.

(** The labels at scores 0.1 and 0.35 violate the order and are pooled to
    1/2; the two observations at score 0.4 share one value; the label 1 at
    score 0.8 is clipped to [1 - 2 eps]. *)
Example calibrate_pools_violators :
  Isotonic.calibrate ps treatment
  = Some [1 # 2; 1 # 2; 1 # 2; 1 - 2 * Isotonic.eps; 1 # 2].
Proof. by vm_compute. Qed.

(** C5, witness: the same five observations. *)
Lemma calibrate_bounds_monotone_witness :
  length ps = length treatment ∧
  ∃ out, Isotonic.calibrate ps treatment = Some out ∧
    length out = length ps ∧
    Forall (fun v => 2 * Isotonic.eps <= v ∧ v <= 1 - 2 * Isotonic.eps) out ∧
    ∀ i j x x' v v',
      ps !! i = Some x → ps !! j = Some x' →
      out !! i = Some v → out !! j = Some v' →
      x <= x' → v <= v'.
Proof.
  split; [reflexivity|]. apply calibrate_bounds_monotone. reflexivity.
Defined.

End isotonic_examples.

(** ** More on the float64 order *)

Section float_order_more.

Lemma SFleb_trans a b c :
  SFleb a b = true → SFleb b c = true → SFleb a c = true.
Proof.
  unfold SFleb.
  destruct a as [sa|sa| |sa ma ea], b as [sb|sb| |sb mb eb], c as [sc|sc| |sc mc ec];
    try destruct sa; try destruct sb; try destruct sc; cbn [SFcompare]; try done.
  all: change (Pos.compare_cont Eq) with Pos.compare.
  all: repeat match goal with
         | |- context [Z.compare ?x ?y] => destruct (Z.compare_spec x y)
         | |- context [Pos.compare ?x ?y] => destruct (Pos.compare_spec x y)
         end; simpl; try done; try lia.
Qed.

Lemma SFltb_leb_trans a b c :
  SFltb a b = true → SFleb b c = true → SFltb a c = true.
Proof.
  unfold SFleb, SFltb.
  destruct a as [sa|sa| |sa ma ea], b as [sb|sb| |sb mb eb], c as [sc|sc| |sc mc ec];
    try destruct sa; try destruct sb; try destruct sc; cbn [SFcompare]; try done.
  all: change (Pos.compare_cont Eq) with Pos.compare.
  all: repeat match goal with
         | |- context [Z.compare ?x ?y] => destruct (Z.compare_spec x y)
         | |- context [Pos.compare ?x ?y] => destruct (Pos.compare_spec x y)
         end; simpl; try done; try lia.
Qed.

Lemma leb_trans x y z :
  (x <=? y)%float = true → (y <=? z)%float = true → (x <=? z)%float = true.
Proof. rewrite !FloatAxioms.leb_spec. apply SFleb_trans. Qed.

Lemma ltb_leb_trans x y z :
  (x <? y)%float = true → (y <=? z)%float = true → (x <? z)%float = true.
Proof.
  rewrite !FloatAxioms.ltb_spec, FloatAxioms.leb_spec. apply SFltb_leb_trans.
Qed.

Lemma leb_not_ltb x y : (x <=? y)%float = true → (y <? x)%float = false.
Proof.
  rewrite FloatAxioms.leb_spec, FloatAxioms.ltb_spec. unfold SFleb, SFltb.
  rewrite (SFcompare_antisym (Prim2SF x) (Prim2SF y)).
  by destruct (SFcompare _ _) as [[]|].
Qed.

Lemma ltb_not_leb x y : (x <? y)%float = true → (y <=? x)%float = false.
Proof.
  rewrite FloatAxioms.leb_spec, FloatAxioms.ltb_spec. unfold SFleb, SFltb.
  rewrite (SFcompare_antisym (Prim2SF x) (Prim2SF y)).
  by destruct (SFcompare _ _) as [[]|].
Qed.

End float_order_more.

(** ** The clamp as a map on arrays *)

Section clamp_array_facts.

Lemma force1_closed_range x :
  is_nan (force1 x) = false →
  within_closed clamp_low clamp_high (force1 x) = true.
Proof.
  destruct (is_nan x) eqn:Hx.
  { rewrite (force1_nan x Hx). congruence. }
  intros _. unfold force1. cbv zeta.
  destruct (x <? clamp_low)%float eqn:Hlo; [by vm_compute|].
  destruct (clamp_high <? x)%float eqn:Hhi; [by vm_compute|].
  unfold within_closed. by rewrite !ltb_false_leb.
Qed.

(** X1: every number the clamp returns lies between [eps] and [1 - eps],
    both included: the clamp bounds a later division by a score or by one
    minus a score. *)
Theorem force_within_range_closed_range p :
  Forall (fun x => is_nan x = false → within_closed clamp_low clamp_high x = true)
    (force_within_range p).
Proof.
  rewrite force_within_range_map. apply Forall_map, Forall_forall.
  intros x _. apply force1_closed_range.
Qed.

Lemma force1_idempotent x : force1 (force1 x) = force1 x.
Proof.
  destruct (x <? clamp_low)%float eqn:Hlo.
  { rewrite (force1_below x Hlo). by vm_compute. }
  destruct (clamp_high <? x)%float eqn:Hhi.
  { rewrite (force1_above x Hhi). by vm_compute. }
  by rewrite !(force1_between x Hlo Hhi).
Qed.

(** X2: clamping an array that was already clamped changes nothing. *)
Theorem force_within_range_idempotent p :
  force_within_range (force_within_range p) = force_within_range p.
Proof.
  rewrite !force_within_range_map, map_map. apply map_ext. intros x.
  apply force1_idempotent.
Qed.

Lemma force1_inside lo hi x :
  (clamp_low <=? lo)%float = true → (hi <=? clamp_high)%float = true →
  (is_nan x = false → within_closed lo hi x = true) →
  force1 x = x.
Proof.
  intros Hlo Hhi Hx. destruct (is_nan x) eqn:Hnan; [by apply force1_nan|].
  specialize (Hx eq_refl). unfold within_closed in Hx.
  apply andb_true_iff in Hx as [Hx1 Hx2].
  apply force1_between; apply leb_not_ltb; by eapply leb_trans.
Qed.

(** X3: an array whose entries lie in an interval [[lo, hi]] inside
    [[eps, 1 - eps]] passes the clamp unchanged, NaN entries included.  The
    bounds [calibrate] hands to the isotonic regression and the default
    [clip_bounds] are such intervals. *)
Theorem force_within_range_inside lo hi p :
  (clamp_low <=? lo)%float = true → (hi <=? clamp_high)%float = true →
  Forall (fun x => is_nan x = false → within_closed lo hi x = true) p →
  force_within_range p = p.
Proof.
  intros Hlo Hhi Hp. rewrite force_within_range_map.
  rewrite <- (map_id p) at 2. apply Forall_fmap_ext_1.
  eapply Forall_impl; [exact Hp|]. intros x Hx. by eapply force1_inside.
Qed.

(** X4: the clamp does not keep the order of the scores.  A score below
    [eps] is replaced by [eps * 1.001], which lies above every score from
    [eps] up to [eps * 1.001] — and these are returned as they are. *)
Theorem force_within_range_inverts_order x y :
  (x <? clamp_low)%float = true →
  (clamp_low <=? y)%float = true → (y <? clamp_low_value)%float = true →
  (x <? y)%float = true ∧
  force_within_range [x; y] = [clamp_low_value; y].
Proof.
  intros Hx Hy1 Hy2. split; [by eapply ltb_leb_trans|].
  rewrite force_within_range_map. simpl. rewrite (force1_below x Hx).
  rewrite force1_between; [done|by apply leb_not_ltb|].
  apply leb_not_ltb. eapply leb_trans; [by apply ltb_leb|]. by vm_compute.
Qed.

End clamp_array_facts.

(** ** compute_propensity_score: errors, objects, module instances *)

Section compute_propensity_score_more.
Context `{Libraries} `{ForeignModels}.

Lemma column1_None (P : np.ndarray2) :
  np.column1 P = None ↔ Exists (fun row : list float => (List.length row ≤ 1)%nat) P.
Proof.
  unfold np.column1. etrans; [apply mapM_None|].
  split; intros HE; eapply Exists_impl; try exact HE; intros row; simpl.
  - rewrite eq_None_not_Some, lookup_lt_is_Some. lia.
  - rewrite eq_None_not_Some, lookup_lt_is_Some. lia.
Qed.

Lemma p_model_fit_missing r X y w o :
  heap w !! r = Some o → hasattr o "fit" = false →
  p_model_fit r X y w = (Raise (AttributeError "fit"), w).
Proof.
  intros Hr Ha. unfold p_model_fit, bind, getattr. by rewrite Hr, Ha.
Qed.

Lemma p_model_predict_missing r X w o :
  heap w !! r = Some o → hasattr o "predict" = false →
  p_model_predict r X w = (Raise (AttributeError "predict"), w).
Proof.
  intros Hr Ha. unfold p_model_predict, bind, getattr. by rewrite Hr, Ha.
Qed.

Lemma compute_propensity_score_fit_Raise X treatment r X_pred treatment_pred
    calibrate_p w e w1 :
  p_model_fit r X treatment w = (Raise e, w1) →
  compute_propensity_score X treatment (Some r) X_pred treatment_pred calibrate_p w
    = (Raise e, w1).
Proof.
  intros Hfit. unfold compute_propensity_score.
  rewrite (bind_step _ _ w r w) by done. by rewrite (bind_Raise _ _ _ _ _ Hfit).
Qed.

Lemma compute_propensity_score_predict_Raise X treatment r X_pred treatment_pred
    calibrate_p w w1 e w2 :
  p_model_fit r X treatment w = (Return (), w1) →
  predict_scores r (default X X_pred) w1 = (Raise e, w2) →
  compute_propensity_score X treatment (Some r) X_pred treatment_pred calibrate_p w
    = (Raise e, w2).
Proof.
  intros Hfit Hpredict. unfold compute_propensity_score.
  rewrite (bind_step _ _ w r w) by done.
  rewrite (bind_step _ _ _ _ _ Hfit).
  replace (match X_pred with Some X' => X' | None => X end) with (default X X_pred)
    by by destruct X_pred.
  by rewrite (bind_Raise _ _ _ _ _ Hpredict).
Qed.

(** The steps of a run that returns. *)
Lemma compute_propensity_score_inv X treatment r X_pred treatment_pred
    calibrate_p w p m w' :
  compute_propensity_score X treatment (Some r) X_pred treatment_pred calibrate_p w
    = (Return (p, m), w') →
  ∃ w1 p0 w2,
    p_model_fit r X treatment w = (Return (), w1) ∧
    predict_scores r (default X X_pred) w1 = (Return p0, w2) ∧
    heap w' = heap w2 ∧
    if calibrate_p
    then m = None ∧ w' = (world_info calibrating_message w2).2 ∧
         ∃ p1, calibrate p0 (default treatment treatment_pred) = Return p1 ∧
               p = force_within_range p1
    else m = Some r ∧ p = force_within_range p0 ∧ w' = w2.
Proof.
  intros Hrun.
  destruct (p_model_fit r X treatment w) as [[[]|e] w1] eqn:Hfit.
  2:{ by rewrite (compute_propensity_score_fit_Raise _ _ _ _ _ _ _ _ _ Hfit) in Hrun. }
  destruct (predict_scores r (default X X_pred) w1) as [[p0|e] w2] eqn:Hpredict.
  2:{ by rewrite (compute_propensity_score_predict_Raise _ _ _ _ _ _ _ _ _ _ Hfit Hpredict)
        in Hrun. }
  rewrite (compute_propensity_score_after_predict _ _ _ _ _ _ _ _ _ _ Hfit Hpredict) in Hrun.
  exists w1, p0, w2. split; [done|]. split; [done|].
  destruct calibrate_p.
  - destruct (calibrate p0 _) as [p1|ex] eqn:Hcal; [|done].
    injection Hrun as <- <- <-. split; [done|]. split; [done|]. split; [done|].
    by exists p1.
  - by injection Hrun as <- <- <-.
Qed.

(** X5: an exception raised by [p_model.fit] leaves
    [compute_propensity_score] as it is, with the state [fit] left: nothing
    is predicted, logged or calibrated.  The [try] block does not cover
    [fit]: a model without a [fit] attribute makes the call raise
    [AttributeError] before anything is called or changed. *)
Theorem compute_propensity_score_fit_error X treatment r X_pred treatment_pred
    calibrate_p w :
  (∀ e w1, p_model_fit r X treatment w = (Raise e, w1) →
     compute_propensity_score X treatment (Some r) X_pred treatment_pred calibrate_p w
       = (Raise e, w1)) ∧
  (∀ o, heap w !! r = Some o → hasattr o "fit" = false →
     compute_propensity_score X treatment (Some r) X_pred treatment_pred calibrate_p w
       = (Raise (AttributeError "fit"), w)).
Proof.
  split.
  - intros e w1. apply compute_propensity_score_fit_Raise.
  - intros o Hr Ha. apply compute_propensity_score_fit_Raise.
    by eapply p_model_fit_missing.
Qed.

(** X6: a model with neither [predict_proba] nor [predict] is not
    recovered: after [fit], the fallback logs its message and the lookup of
    [predict] raises [AttributeError], which leaves the call. *)
Theorem compute_propensity_score_no_predict X treatment r X_pred treatment_pred
    calibrate_p w w1 o :
  p_model_fit r X treatment w = (Return (), w1) →
  heap w1 !! r = Some o →
  hasattr o "predict_proba" = false → hasattr o "predict" = false →
  compute_propensity_score X treatment (Some r) X_pred treatment_pred calibrate_p w
    = (Raise (AttributeError "predict"), (world_info fallback_message w1).2).
Proof.
  intros Hfit Hr Hproba Hpredict.
  apply (compute_propensity_score_predict_Raise _ _ _ _ _ _ _ w1); [done|].
  rewrite predict_scores_eq.
  rewrite (bind_Raise _ _ _ _ _ (p_model_predict_proba_missing _ _ _ _ Hr Hproba)).
  unfold bind at 1. simpl. by eapply p_model_predict_missing.
Qed.

(** X7: when [predict_proba] returns an array with a row of fewer than two
    entries, the index [[:, 1]] raises IndexError; this is no
    [AttributeError], so there is no fallback to [predict] and the call
    raises. *)
Theorem compute_propensity_score_one_column X treatment r X_pred treatment_pred
    calibrate_p w w1 P w2 :
  p_model_fit r X treatment w = (Return (), w1) →
  p_model_predict_proba r (default X X_pred) w1 = (Return P, w2) →
  Exists (fun row : list float => (List.length row ≤ 1)%nat) P →
  compute_propensity_score X treatment (Some r) X_pred treatment_pred calibrate_p w
    = (Raise (Exception "IndexError"), w2).
Proof.
  intros Hfit Hproba Hrow%column1_None.
  apply (compute_propensity_score_predict_Raise _ _ _ _ _ _ _ w1); [done|].
  rewrite predict_scores_eq, (bind_step _ _ _ _ _ Hproba).
  unfold getitem_column1. by rewrite Hrow.
Qed.

End compute_propensity_score_more.

(** ** The methods of the classes: fit, predict, fit_predict *)

Section method_facts.
Context `{Libraries}.

Lemma resolve_fit_predict c : resolve c "fit_predict" = Some PropensityModel.
Proof. by destruct c; vm_compute. Qed.

Lemma self_fit_predict_eq c X y s :
  self_fit_predict c X y s = PropensityModel_fit_predict c X y s.
Proof. unfold self_fit_predict, call_method. by rewrite resolve_fit_predict. Qed.

(** [predict] assigns nothing and reads neither the log nor the generator. *)
Lemma PropensityModel_predict_state X i e :
  (PropensityModel_predict X (i, e)).2 = (i, e).
Proof.
  unfold PropensityModel_predict, model_predict_proba_1, bind, get_self, lift,
    getitem_column1.
  destruct (estimator_predict_proba _ _ _ _) as [P|ex]; [|done].
  by destruct (np.column1 P).
Qed.

Lemma self_predict_state c X i e : (self_predict c X (i, e)).2 = (i, e).
Proof.
  unfold self_predict, call_method. rewrite resolve_predict.
  destruct c; simpl; try apply PropensityModel_predict_state.
  rewrite GradientBoostedPropensityModel_predict_eq.
  destruct (early_stop i); [apply PropensityModel_predict_state|done].
Qed.

Lemma self_predict_env c X i e e' :
  (self_predict c X (i, e)).1 = (self_predict c X (i, e')).1.
Proof.
  unfold self_predict, call_method. rewrite resolve_predict.
  destruct c; simpl; rewrite ?GradientBoostedPropensityModel_predict_eq;
    try destruct (early_stop i); try done;
    by rewrite !PropensityModel_predict_value.
Qed.

Lemma model_fit_learned X y ev i e i' e' :
  model_fit X y ev (i, e) = (Return (), (i', e')) → is_Some (learned (model i')).
Proof.
  unfold model_fit, bind, get_self, lift, set_model.
  destruct (estimator_fit _ _ _ _ _) as [f|ex]; [|done].
  intros [= <- <-]. by eexists.
Qed.

Lemma self_fit_learned c X y i e i' e' :
  self_fit c X y (i, e) = (Return (), (i', e')) → is_Some (learned (model i')).
Proof.
  unfold self_fit, call_method. rewrite resolve_fit.
  destruct c; simpl; try apply model_fit_learned.
  rewrite GradientBoostedPropensityModel_fit_eq.
  destruct (early_stop i) as [[]|]; [| apply model_fit_learned | done].
  unfold bind, call_train_test_split.
  destruct (train_test_split X y _ (random e)) as [[[[[X1 X2] y1] y2]|ex] g]; [|done].
  apply model_fit_learned.
Qed.

(** X8: [predict] is read-only.  Whatever it yields — scores or an
    exception — the instance, the log and the random generator are as
    before, and what it yields depends on the instance alone; so a second
    [predict] on the same input yields what the first did, without
    refitting. *)
Theorem predict_read_only c X i e :
  (self_predict c X (i, e)).2 = (i, e) ∧
  (∀ e', (self_predict c X (i, e')).1 = (self_predict c X (i, e)).1) ∧
  (let! _ := self_predict c X in self_predict c X) (i, e) = self_predict c X (i, e).
Proof.
  split; [apply self_predict_state|]. split; [intros e'; apply self_predict_env|].
  unfold bind. pose proof (self_predict_state c X i e) as Hst.
  destruct (self_predict c X (i, e)) as [[p|ex] s] eqn:Hp; simpl in Hst; subst s.
  - by rewrite Hp.
  - done.
Qed.

(** X9: [fit] assigns no attribute of the instance and logs nothing,
    whether it returns or raises: the clip bounds, [model_kwargs] and
    [early_stop] are as before, and so is the log.  When it returns, the
    classifier in [self.model] holds learned parameters. *)
Theorem fit_keeps_configuration c X y i e res i' e' :
  self_fit c X y (i, e) = (res, (i', e')) →
  clip_bounds i' = clip_bounds i ∧ model_kwargs i' = model_kwargs i ∧
  early_stop i' = early_stop i ∧ trace e' = trace e ∧
  (res = Return () → is_Some (learned (model i'))).
Proof.
  intros Hfit.
  destruct (self_fit_attrs _ _ _ _ _ _ _ _ Hfit) as (Hcb & Hes & Hmk & _ & _ & Htr).
  repeat (split; [done|]). intros ->. by eapply self_fit_learned.
Qed.

(** The steps of a [fit_predict] that returns. *)
Lemma fit_predict_inv c X y i e p s' :
  self_fit_predict c X y (i, e) = (Return p, s') →
  ∃ i1 e1 a,
    self_fit c X y (i, e) = (Return (), (i1, e1)) ∧
    self_predict c X (i1, e1) = (Return p, (i1, e1)) ∧
    roc_auc_score y p = Return a ∧
    s' = (i1, {| trace := trace e1 ++ [Info ("AUC score: " ++ format_6f a)];
                 random := random e1 |}).
Proof.
  rewrite self_fit_predict_eq. unfold PropensityModel_fit_predict. intros Hrun.
  apply bind_Return in Hrun as ([] & [i1 e1] & Hfit & Hrun).
  apply bind_Return in Hrun as (p0 & s2 & Hp & Hrun).
  pose proof (self_predict_state c X i1 e1) as Hst. rewrite Hp in Hst.
  simpl in Hst. subst s2.
  apply bind_Return in Hrun as (a & s3 & Hauc & Hrun).
  unfold lift in Hauc. destruct (roc_auc_score y p0) as [a0|ex] eqn:Ha; [|done].
  injection Hauc as -> <-.
  unfold bind, frame_info, logger_info, ret in Hrun. simpl in Hrun.
  injection Hrun as <- <-. by exists i1, e1, a.
Qed.

(** X10: when [fit_predict(X, y)] returns scores, the object is left
    fitted, a following [predict(X)] returns the same scores and changes
    nothing, and the one record added to the log is the AUC of those scores
    against [y], formatted with six decimals. *)
Theorem fit_predict_then_predict c X y i e p i' e' :
  self_fit_predict c X y (i, e) = (Return p, (i', e')) →
  self_predict c X (i', e') = (Return p, (i', e')) ∧
  is_Some (learned (model i')) ∧
  ∃ a, roc_auc_score y p = Return a ∧
       trace e' = (trace e ++ [Info ("AUC score: " ++ format_6f a)])%list.
Proof.
  intros (i1 & e1 & a & Hfit & Hp & Hauc & Hs)%fit_predict_inv.
  injection Hs as -> ->.
  split; [|split].
  - pose proof (self_predict_state c X i1
                  {| trace := trace e1 ++ [Info ("AUC score: " ++ format_6f a)];
                     random := random e1 |}) as Hst.
    pose proof (self_predict_env c X i1
                  {| trace := trace e1 ++ [Info ("AUC score: " ++ format_6f a)];
                     random := random e1 |} e1) as Hv.
    rewrite Hp in Hv. simpl in Hv.
    by rewrite (surjective_pairing (self_predict c X _)), Hst, Hv.
  - by eapply self_fit_learned.
  - exists a. split; [done|]. simpl.
    by destruct (self_fit_attrs _ _ _ _ _ _ _ _ Hfit) as (_ & _ & _ & _ & _ & ->).
Qed.

(** X11: the AUC is computed before [fit_predict] returns, outside any
    handler: when training and prediction succeed but [roc_auc_score]
    raises, [fit_predict] raises that exception instead of returning the
    scores; the object stays fitted and nothing is logged. *)
Theorem fit_predict_auc_error c X y i e i1 e1 p ex :
  self_fit c X y (i, e) = (Return (), (i1, e1)) →
  self_predict c X (i1, e1) = (Return p, (i1, e1)) →
  roc_auc_score y p = Raise ex →
  self_fit_predict c X y (i, e) = (Raise ex, (i1, e1)) ∧
  is_Some (learned (model i1)) ∧ trace e1 = trace e.
Proof.
  intros Hfit Hp Hauc. split; [|split].
  - rewrite self_fit_predict_eq. unfold PropensityModel_fit_predict.
    rewrite (bind_step _ _ _ _ _ Hfit), (bind_step _ _ _ _ _ Hp).
    apply bind_Raise. unfold lift. by rewrite Hauc.
  - by eapply self_fit_learned.
  - by destruct (self_fit_attrs _ _ _ _ _ _ _ _ Hfit) as (_ & _ & _ & _ & _ & ->).
Qed.

End method_facts.

(** ** GradientBoostedPropensityModel: fit and construction *)

Section gradient_boosted_facts.
Context `{Libraries}.

Lemma self_fit_GradientBoosted X y s :
  self_fit GradientBoostedPropensityModel X y s
    = GradientBoostedPropensityModel_fit GradientBoostedPropensityModel X y 0.2 s.
Proof. unfold self_fit, call_method. by rewrite resolve_fit. Qed.

Lemma model_fit_eq X y ev i e :
  model_fit X y ev (i, e) =
    match estimator_fit (est (model i)) (params (model i)) X y ev with
    | Return f =>
        (Return (),
         ({| clip_bounds := clip_bounds i; model_kwargs := model_kwargs i;
             model := {| est := est (model i); params := params (model i);
                         learned := Some f |};
             early_stop := early_stop i |}, e))
    | Raise ex => (Raise ex, (i, e))
    end.
Proof.
  unfold model_fit, bind, get_self, lift, set_model.
  by destruct (estimator_fit _ _ _ _ _).
Qed.

(** X12: [fit] on a [GradientBoostedPropensityModel].
    - Without early stopping it is the base-class [fit]: the classifier is
      fitted on all of [(X, y)] with no evaluation set, and the random
      generator is not used.
    - With early stopping, [(X, y)] is first split at random with
      [test_size = 0.2]; the split draws from the generator, so a second
      [fit] starts from another generator state.  A split that raises leaves
      the classifier as it was.  Otherwise the classifier is fitted on the
      training part alone, with the validation part as the one evaluation
      set. *)
Theorem GradientBoosted_fit_branches X y i e :
  (early_stop i = Some false →
   self_fit GradientBoostedPropensityModel X y (i, e) = model_fit X y [] (i, e) ∧
   random (self_fit GradientBoostedPropensityModel X y (i, e)).2.2 = random e) ∧
  (early_stop i = Some true →
   let e1 := {| trace := trace e;
                random := (train_test_split X y 0.2 (random e)).2 |} in
   self_fit GradientBoostedPropensityModel X y (i, e) =
     match (train_test_split X y 0.2 (random e)).1 with
     | Return (X_train, X_val, y_train, y_val) =>
         model_fit X_train y_train [(X_val, y_val)] (i, e1)
     | Raise ex => (Raise ex, (i, e1))
     end).
Proof.
  split; intros Hes; rewrite self_fit_GradientBoosted,
    GradientBoostedPropensityModel_fit_eq, Hes.
  - split; [done|]. unfold PropensityModel_fit. rewrite model_fit_eq.
    by destruct (estimator_fit _ _ _ _ _).
  - unfold bind, call_train_test_split.
    by destruct (train_test_split X y _ (random e)) as [[[[[X1 X2] y1] y2]|ex] g].
Qed.

Lemma instantiate_GradientBoosted es cb mk :
  instantiate GradientBoostedPropensityModel es cb mk =
    Return {| clip_bounds := default default_clip_bounds cb;
              model_kwargs := mk;
              model := (GradientBoostedPropensityModel__model mk (default false es)).1;
              early_stop := Some (default false es) |}.
Proof. done. Qed.

(** X13: what [GradientBoostedPropensityModel(early_stop=.., clip_bounds=..,
    **model_kwargs)] builds, when the classifier accepts its arguments: an
    unfitted [XGBClassifier], with [early_stop] ([False] by default) and the
    clip bounds stored and [model_kwargs] kept whole.  With
    [early_stop=True] the classifier is given [early_stopping_rounds = 10]
    even when the options supply another value: this one option does not
    take precedence.  Every other supplied option does, and without
    [early_stop] all of them do; an option of the default table that is not
    supplied keeps its default, as [max_depth = 8]. *)
Theorem GradientBoosted_construction es cb mk i :
  instantiate GradientBoostedPropensityModel es cb mk = Return i →
  early_stop i = Some (default false es) ∧
  clip_bounds i = default default_clip_bounds cb ∧
  model_kwargs i = mk ∧
  est (model i) = XGBClassifier ∧ learned (model i) = None ∧
  (es = Some true → params (model i) !! "early_stopping_rounds" = Some (PyInt 10)) ∧
  (∀ key v, mk !! key = Some v →
     key ≠ "early_stopping_rounds" ∨ default false es = false →
     params (model i) !! key = Some v) ∧
  (default false es = false → mk !! "early_stopping_rounds" = None →
     params (model i) !! "early_stopping_rounds" = None) ∧
  (mk !! "max_depth" = None → params (model i) !! "max_depth" = Some (PyInt 8)).
Proof.
  rewrite instantiate_GradientBoosted. intros [= <-]. cbn [early_stop clip_bounds
    model_kwargs model].
  unfold GradientBoostedPropensityModel__model. cbn [fst est params learned].
  repeat (split; [done|]).
  split; [|split; [|split]].
  - intros ->. simpl. by apply lookup_union_Some_l.
  - intros key v Hv Hkey. destruct (default false es) eqn:Hes.
    + destruct Hkey as [Hkey|]; [|done].
      rewrite lookup_union_r by by rewrite lookup_singleton_ne.
      by apply lookup_union_Some_l.
    + by apply lookup_union_Some_l.
  - intros -> Hmk. apply lookup_union_None. split; [done|]. by vm_compute.
  - intros Hmk. destruct (default false es).
    + rewrite lookup_union_r by done. rewrite lookup_union_r by done. by vm_compute.
    + rewrite lookup_union_r by done. by vm_compute.
Qed.

End gradient_boosted_facts.

(** ** Construction: the abstract class and the property [_model] *)

Section construction_more.
Context `{Libraries}.

Lemma self__model_LogisticRegression c mk es :
  c = LogisticRegressionPropensityModel ∨ c = ElasticNetPropensityModel →
  self__model c mk es = Return (LogisticRegressionPropensityModel__model mk).
Proof. by intros [-> | ->]. Qed.

(** X14: reading the property [_model] consumes [n_fold].  After
    [LogisticRegressionPropensityModel(n_fold=k, ...)], or the same call on
    [ElasticNetPropensityModel], the classifier in [self.model] cross-validates
    with [k] folds, but [self._model] read again builds a classifier with
    the default 4 folds — [n_fold] is no longer in [model_kwargs] — and
    otherwise the same arguments; this second read leaves [model_kwargs] as
    it finds it. *)
Theorem LogisticRegression__model_reread c cb mk k i :
  c = LogisticRegressionPropensityModel ∨ c = ElasticNetPropensityModel →
  mk !! "n_fold" = Some k → mk !! "cv" = None →
  instantiate c None cb mk = Return i →
  let random_state := default (PyInt 42) (mk !! "random_state") in
  params (model i) !! "cv" = Some (StratifiedKFold k (PyBool true) random_state) ∧
  ∃ m2,
    self__model c (model_kwargs i) (early_stop i) = Return (m2, model_kwargs i) ∧
    params m2 !! "cv" = Some (StratifiedKFold (PyInt 4) (PyBool true) random_state) ∧
    ∀ key, key ≠ "cv" → params m2 !! key = params (model i) !! key.
Proof.
  intros Hc Hk Hcv. rewrite (instantiate_LogisticRegression c cb mk Hc).
  intros [= <-] random_state.
  cbn [clip_bounds model_kwargs model early_stop].
  rewrite (self__model_LogisticRegression c _ None Hc).
  unfold LogisticRegressionPropensityModel__model. rewrite Hk. cbn [fst snd params].
  rewrite lookup_delete_eq. cbn [fst snd params].
  assert (delete "n_fold" mk !! "cv" = None) as Hcv'.
  { by rewrite lookup_delete_ne. }
  assert (delete "n_fold" mk !! "random_state" = mk !! "random_state") as Hrs.
  { by rewrite lookup_delete_ne. }
  split.
  { rewrite lookup_union_r by done. rewrite Hrs. by vm_compute. }
  eexists. split; [done|]. cbn [params]. split.
  { rewrite lookup_union_r by done. rewrite Hrs. by vm_compute. }
  intros key Hkey. rewrite !lookup_union. f_equal.
  destruct (decide (key = "penalty")) as [->|]; [done|].
  rewrite !(lookup_insert_ne _ "penalty") by done.
  destruct (decide (key = "solver")) as [->|]; [done|].
  rewrite !(lookup_insert_ne _ "solver") by done.
  destruct (decide (key = "Cs")) as [->|]; [done|].
  rewrite !(lookup_insert_ne _ "Cs") by done.
  destruct (decide (key = "l1_ratios")) as [->|]; [done|].
  rewrite !(lookup_insert_ne _ "l1_ratios") by done.
  by rewrite !(lookup_insert_ne _ "cv") by done.
Qed.

(** X15: [PropensityModel] alone is abstract — each class below it
    provides [_model] — and calling it raises [TypeError], whatever the
    arguments, before [__init__] runs. *)
Theorem PropensityModel_abstract c :
  (is_abstract c = true ↔ c = PropensityModel) ∧
  ∀ es cb mk, instantiate PropensityModel es cb mk = Raise (Exception "TypeError").
Proof.
  split; [|done]. by destruct c; vm_compute.
Qed.

End construction_more.

(** ** Clip bounds that are not ordered *)

Section clip_inverted_facts.
Context `{Libraries}.



End clip_inverted_facts.

(** ** compute_propensity_score on the classes of the module *)

Section compute_propensity_score_instances.
Context `{Libraries} `{ForeignModels}.


(** [fit] on an instance: the call is noted, nothing is logged, the
    instance keeps its class and configuration and becomes fitted. *)
Lemma p_model_fit_Instance_more r X y w w' c i :
  heap w !! r = Some (Instance c i) →
  p_model_fit r X y w = (Return (), w') →
  ∃ i', heap w' !! r = Some (Instance c i') ∧
        clip_bounds i' = clip_bounds i ∧ est (model i') = est (model i) ∧
        is_Some (learned (model i')) ∧
        trace (wenv w') = (trace (wenv w) ++ [Called r "fit"])%list.
Proof.
  intros Hr Hrun. unfold p_model_fit in Hrun.
  apply bind_Return in Hrun as (o & w0 & Hget & Hrun).
  apply getattr_inv in Hget as [-> Ho]. destruct (Ho _ eq_refl) as [Ho' _].
  rewrite Hr in Ho'. injection Ho' as <-.
  rewrite (bind_step _ _ _ _ _ (called_spec r "fit" w)) in Hrun.
  unfold on_instance in Hrun. cbn [wenv] in Hrun.
  destruct (self_fit c X y _) as [a [i' e']] eqn:Hfit.
  injection Hrun as -> <-. exists i'.
  pose proof (self_fit_learned _ _ _ _ _ _ _ Hfit) as Hlearned.
  apply self_fit_attrs in Hfit as (Hcb & _ & _ & Hest & _ & Htrace).
  split; [apply lookup_insert_eq|]. by repeat (split; [done|]).
Qed.

(** [predict] on an instance leaves the instance as it is. *)
Lemma p_model_predict_Instance_heap r X w p w' c i :
  heap w !! r = Some (Instance c i) →
  p_model_predict r X w = (Return p, w') →
  heap w' !! r = Some (Instance c i).
Proof.
  intros Hr Hrun. unfold p_model_predict in Hrun.
  apply bind_Return in Hrun as (o & w0 & Hget & Hrun).
  apply getattr_inv in Hget as [-> Ho]. destruct (Ho _ eq_refl) as [Ho' _].
  rewrite Hr in Ho'. injection Ho' as <-.
  rewrite (bind_step _ _ _ _ _ (called_spec r "predict" w)) in Hrun.
  unfold on_instance in Hrun. cbn [wenv] in Hrun.
  destruct (self_predict c X _) as [a [i' e']] eqn:Hp.
  injection Hrun as -> <-.
  apply self_predict_Return in Hp as (Hs & _). injection Hs as -> ->.
  apply lookup_insert_eq.
Qed.

(** The prediction step on an instance of a class of the module. *)
Lemma predict_scores_Instance r X w p w' c i :
  heap w !! r = Some (Instance c i) →
  predict_scores r X w = (Return p, w') →
  heap w' !! r = Some (Instance c i) ∧
  trace (wenv w')
    = (trace (wenv w) ++ [Info fallback_message; Called r "predict"])%list ∧
  ∃ P a,
    estimator_predict_proba (est (model i)) (params (model i)) (learned (model i)) X
      = Return P ∧
    np.column1 P = Some a ∧
    p = np.clip a (clip_bounds i).1 (clip_bounds i).2.
Proof.
  intros Hr. rewrite predict_scores_eq.
  rewrite (bind_Raise _ _ _ _ _
             (p_model_predict_proba_missing _ X _ _ Hr (hasattr_Instance_predict_proba c i))).
  intros Hp. apply bind_Return in Hp as ([] & w1 & Hlog & Hp).
  injection Hlog as <-.
  split; [by eapply p_model_predict_Instance_heap; [|exact Hp]|].
  split.
  - rewrite (p_model_predict_trace _ _ _ _ _ Hp). simpl. by rewrite <- app_assoc.
  - by eapply p_model_predict_Instance; [|exact Hp].
Qed.


(** The default model: a new object, an [ElasticNetPropensityModel()]. *)
Lemma compute_propensity_score_None X treatment X_pred treatment_pred calibrate_p w :
  let r := fresh (dom (heap w)) in
  let i0 := {| clip_bounds := default_clip_bounds;
               model_kwargs := (LogisticRegressionPropensityModel__model ∅).2;
               model := (LogisticRegressionPropensityModel__model ∅).1;
               early_stop := None |} in
  compute_propensity_score X treatment None X_pred treatment_pred calibrate_p w
    = compute_propensity_score X treatment (Some r) X_pred treatment_pred calibrate_p
        (store r (Instance ElasticNetPropensityModel i0) (wenv w) w).
Proof.
  intros r i0.
  pose proof (instantiate_LogisticRegression ElasticNetPropensityModel None ∅
                (or_intror eq_refl)) as Hnew.
  set (w0 := store r (Instance ElasticNetPropensityModel i0) (wenv w) w).
  assert (new_ElasticNetPropensityModel w = (Return r, w0)) as Hobj.
  { unfold new_ElasticNetPropensityModel, bind, lift. by rewrite Hnew. }
  unfold compute_propensity_score.
  by rewrite (bind_step _ _ w r w0 Hobj), (bind_step _ _ w0 r w0).
Qed.

(** X18: with [p_model=None] and no calibration, the model returned is an
    object that did not exist before the call: a fitted
    [ElasticNetPropensityModel] with the default clip bounds, wrapping a
    [LogisticRegressionCV].  It is the one object the call adds, and every
    object that existed before is untouched. *)
Theorem compute_propensity_score_default_model X treatment X_pred treatment_pred
    w p m w' :
  compute_propensity_score X treatment None X_pred treatment_pred false w
    = (Return (p, m), w') →
  ∃ r i,
    m = Some r ∧ heap w !! r = None ∧
    heap w' !! r = Some (Instance ElasticNetPropensityModel i) ∧
    clip_bounds i = (1e-3, 1 - 1e-3)%float ∧
    est (model i) = LogisticRegressionCV ∧
    is_Some (learned (model i)) ∧
    dom (heap w') = {[ r ]} ∪ dom (heap w) ∧
    ∀ r', r' ≠ r → heap w' !! r' = heap w !! r'.
Proof.
  rewrite compute_propensity_score_None. intros Hrun.
  set (r := fresh (dom (heap w))) in *.
  set (w0 := store r _ (wenv w) w) in Hrun.
  apply compute_propensity_score_inv in Hrun
    as (w1 & p0 & w2 & Hfit & Hpredict & _ & -> & -> & ->).
  assert (heap w0 !! r = Some (Instance ElasticNetPropensityModel
            {| clip_bounds := default_clip_bounds;
               model_kwargs := (LogisticRegressionPropensityModel__model ∅).2;
               model := (LogisticRegressionPropensityModel__model ∅).1;
               early_stop := None |})) as Hr0 by apply lookup_insert_eq.
  destruct (p_model_fit_Instance_more _ _ _ _ _ _ _ Hr0 Hfit)
    as (i1 & Hr1 & Hcb & Hest & Hlearned & _).
  destruct (predict_scores_Instance _ _ _ _ _ _ _ Hr1 Hpredict) as (Hr2 & _).
  assert (same_objects r w0 w2) as [Hdom Hothers].
  { eapply same_objects_trans.
    - by eapply p_model_fit_same_objects.
    - by eapply predict_scores_same_objects. }
  exists r, i1. split; [done|]. split.
  { apply not_elem_of_dom, is_fresh. }
  repeat (split; [done|]). split.
  - rewrite Hdom. unfold w0. simpl. by rewrite dom_insert_L.
  - intros r' Hr'. rewrite (Hothers r' Hr'). unfold w0. simpl.
    by rewrite lookup_insert_ne.
Qed.


(** X20: with calibration, when the call returns, the scores are those of
    the isotonic regression, fitted on the predicted scores against
    [treatment_pred] ([treatment] by default), and the last record of the log
    is the message of the calibration.  When the regression keeps its output
    within the bounds [calibrate] gave it, [2 eps] and [1 - 2 eps], the final
    clamp changes nothing: the caller receives the calibrated scores
    themselves. *)
Theorem compute_propensity_score_calibrated_scores X treatment r X_pred treatment_pred
    w p m w' :
  compute_propensity_score X treatment (Some r) X_pred treatment_pred true w
    = (Return (p, m), w') →
  ∃ w1 p0 w2 p1,
    p_model_fit r X treatment w = (Return (), w1) ∧
    predict_scores r (default X X_pred) w1 = (Return p0, w2) ∧
    calibrate p0 (default treatment treatment_pred) = Return p1 ∧
    p = force_within_range p1 ∧
    trace (wenv w') = (trace (wenv w2) ++ [Info calibrating_message])%list ∧
    (Forall (fun x => is_nan x = false →
                      within_closed (2 * np.finfo_eps) (1 - 2 * np.finfo_eps) x = true) p1 →
     p = p1).
Proof.
  intros Hrun.
  apply compute_propensity_score_inv in Hrun
    as (w1 & p0 & w2 & Hfit & Hpredict & _ & _ & -> & p1 & Hcal & ->).
  exists w1, p0, w2, p1. repeat (split; [done|]).
  intros Hp1. rewrite force_within_range_map.
  rewrite <- (map_id p1) at 2. apply Forall_fmap_ext_1.
  eapply Forall_impl; [exact Hp1|]. intros x Hx.
  by apply (force1_inside (2 * np.finfo_eps) (1 - 2 * np.finfo_eps)).
Qed.

End compute_propensity_score_instances.

(** ** Runs of the further properties *)

Section clamp_array_examples.

(** X3, witness: scores within the default clip bounds, one of them NaN. *)
Lemma force_within_range_inside_witness :
  (clamp_low <=? 1e-3)%float = true ∧ (1 - 1e-3 <=? clamp_high)%float = true ∧
  force_within_range [0.5; nan; 1e-3; 1 - 1e-3]%float = [0.5; nan; 1e-3; 1 - 1e-3]%float.
Proof.
  split; [by vm_compute|]. split; [by vm_compute|].
  apply (force_within_range_inside 1e-3 (1 - 1e-3)); [by vm_compute..|].
  repeat apply List.Forall_cons; try apply List.Forall_nil; by vm_compute.
Defined.

(** X4, witness: the scores 0 and [eps] come back as [eps * 1.001] and
    [eps]. *)
Lemma force_within_range_inverts_order_witness :
  (0 <? clamp_low)%float = true ∧ (clamp_low <? clamp_low_value)%float = true ∧
  force_within_range [0%float; clamp_low] = [clamp_low_value; clamp_low].
Proof.
  split; [by vm_compute|]. split; [by vm_compute|].
  by destruct (force_within_range_inverts_order 0 clamp_low) as [_ Hrun];
    [by vm_compute..|].
Defined.

End clamp_array_examples.

Section error_examples.
Import Toy.

Let features : np.ndarray2 := [[0.5]; [0.0005]; [1]]%float.
Let treatment : labels := [1; 0; 1]%Z.

(** X6, witness: a model with [fit] alone. *)
Lemma compute_propensity_score_no_predict_witness :
  let run := @compute_propensity_score libs models features treatment
               (Some 1%positive) None None true (world_with fit_only) in
  run.1 = Raise (AttributeError "predict") ∧
  trace (wenv run.2) = [Called 1%positive "fit"; Info fallback_message].
Proof.
  intros run.
  pose proof (@compute_propensity_score_no_predict libs models features treatment
                1%positive None None true (world_with fit_only)
                (@p_model_fit libs models 1%positive features treatment
                   (world_with fit_only)).2
                (@Foreign libs models fit_only)) as Hrun.
  fold run in Hrun. rewrite Hrun by by vm_compute. by vm_compute.
Defined.

(** X7, witness: a model whose [predict_proba] reports one column. *)
Lemma compute_propensity_score_one_column_witness :
  let run := @compute_propensity_score libs models features treatment
               (Some 1%positive) None None false (world_with one_column) in
  run.1 = Raise (Exception "IndexError") ∧
  trace (wenv run.2) = [Called 1%positive "fit"; Called 1%positive "predict_proba"].
Proof.
  intros run.
  pose proof (@compute_propensity_score_one_column libs models features treatment
                1%positive None None false (world_with one_column)
                (@p_model_fit libs models 1%positive features treatment
                   (world_with one_column)).2
                [[0.5]; [0.25]]%float
                (@p_model_predict_proba libs models 1%positive features
                   (@p_model_fit libs models 1%positive features treatment
                      (world_with one_column)).2).2) as Hrun.
  fold run in Hrun. rewrite Hrun; [by vm_compute..|].
  apply List.Exists_cons_hd. simpl. lia.
Defined.


End error_examples.

Section method_examples.
Import Toy.

Let features : np.ndarray2 := [[0.5]; [0.0005]; [1]]%float.
Let treatment : labels := [1; 0; 1]%Z.

(** X9, witness: [fit] on a [GradientBoostedPropensityModel] with early
    stopping. *)
Lemma fit_keeps_configuration_witness :
  ∃ i' e',
    @self_fit libs GradientBoostedPropensityModel features treatment (boosted, env0)
      = (Return (), (i', e')) ∧
    clip_bounds i' = clip_bounds boosted ∧ model_kwargs i' = model_kwargs boosted ∧
    early_stop i' = early_stop boosted ∧ trace e' = trace env0 ∧
    is_Some (learned (model i')).
Proof.
  assert (∃ i' e',
    @self_fit libs GradientBoostedPropensityModel features treatment (boosted, env0)
      = (Return (), (i', e'))) as (i' & e' & Hfit).
  { eexists _, _. by vm_compute. }
  exists i', e'. split; [done|].
  destruct (@fit_keeps_configuration libs _ _ _ _ _ _ _ _ Hfit)
    as (Hcb & Hmk & Hes & Htr & Hlearned).
  repeat (split; [done|]). by apply Hlearned.
Defined.

(** X10, witness: [fit_predict] on a new
    [LogisticRegressionPropensityModel]. *)
Lemma fit_predict_then_predict_witness :
  ∃ i i' e',
    @instantiate libs LogisticRegressionPropensityModel None None ∅ = Return i ∧
    self_fit_predict LogisticRegressionPropensityModel features treatment (i, env0)
      = (Return [0.5; 1e-3; 1 - 1e-3]%float, (i', e')) ∧
    self_predict LogisticRegressionPropensityModel features (i', e')
      = (Return [0.5; 1e-3; 1 - 1e-3]%float, (i', e')) ∧
    trace e' = [Info "AUC score: 0.500000"].
Proof.
  assert (∃ i i' e',
    @instantiate libs LogisticRegressionPropensityModel None None ∅ = Return i ∧
    self_fit_predict LogisticRegressionPropensityModel features treatment (i, env0)
      = (Return [0.5; 1e-3; 1 - 1e-3]%float, (i', e')) ∧
    trace e' = [Info "AUC score: 0.500000"]) as (i & i' & e' & Hi & Hrun & Htr).
  { eexists _, _, _. split; [by vm_compute|]. by vm_compute. }
  exists i, i', e'. split; [done|]. split; [done|]. split; [|done].
  by destruct (@fit_predict_then_predict libs _ _ _ _ _ _ _ _ Hrun) as [Hp _].
Defined.

(** X11, witness: labels of a single class, for which the AUC is not
    defined. *)
Lemma fit_predict_auc_error_witness :
  ∃ i i1 e1,
    @instantiate libs_strict LogisticRegressionPropensityModel None None ∅ = Return i ∧
    @self_fit libs_strict LogisticRegressionPropensityModel features [1; 1; 1]%Z
      (i, @Build_env libs_strict [] tt) = (Return (), (i1, e1)) ∧
    @self_fit_predict libs_strict LogisticRegressionPropensityModel features [1; 1; 1]%Z
      (i, @Build_env libs_strict [] tt) = (Raise (Exception "ValueError"), (i1, e1)) ∧
    is_Some (learned (model i1)) ∧ trace e1 = [].
Proof.
  assert (∃ i i1 e1,
    @instantiate libs_strict LogisticRegressionPropensityModel None None ∅ = Return i ∧
    @self_fit libs_strict LogisticRegressionPropensityModel features [1; 1; 1]%Z
      (i, @Build_env libs_strict [] tt) = (Return (), (i1, e1)) ∧
    @self_predict libs_strict LogisticRegressionPropensityModel features (i1, e1)
      = (Return [0.5; 1e-3; 1 - 1e-3]%float, (i1, e1)))
    as (i & i1 & e1 & Hi & Hfit & Hp).
  { eexists _, _, _. split; [by vm_compute|]. by vm_compute. }
  exists i, i1, e1. split; [done|]. split; [done|].
  exact (@fit_predict_auc_error libs_strict _ _ _ _ _ _ _ _ (Exception "ValueError")
           Hfit Hp eq_refl).
Defined.

(** X13, witness: [early_stop=True] with [early_stopping_rounds=50] and
    [max_depth=3] supplied. *)
Lemma GradientBoosted_construction_witness :
  let mk : dict := {[ "early_stopping_rounds" := PyInt 50; "max_depth" := PyInt 3 ]} in
  ∃ i,
    @instantiate libs GradientBoostedPropensityModel (Some true) None mk = Return i ∧
    model_kwargs i = mk ∧
    params (model i) !! "early_stopping_rounds" = Some (PyInt 10) ∧
    params (model i) !! "max_depth" = Some (PyInt 3).
Proof.
  intros mk.
  assert (∃ i, @instantiate libs GradientBoostedPropensityModel (Some true) None mk
               = Return i) as [i Hi] by by eexists.
  exists i. split; [done|].
  destruct (@GradientBoosted_construction libs _ _ _ _ Hi)
    as (_ & _ & Hmk & _ & _ & Hrounds & Hwin & _).
  split; [done|]. split; [by apply Hrounds|].
  apply Hwin; [by vm_compute|by left].
Defined.

(** X14, witness: [LogisticRegressionPropensityModel(n_fold=7)]. *)
Lemma LogisticRegression__model_reread_witness :
  let mk : dict := {[ "n_fold" := PyInt 7 ]} in
  ∃ i m2,
    @instantiate libs LogisticRegressionPropensityModel None None mk = Return i ∧
    params (model i) !! "cv"
      = Some (StratifiedKFold (PyInt 7) (PyBool true) (PyInt 42)) ∧
    @self__model libs LogisticRegressionPropensityModel (model_kwargs i) (early_stop i)
      = Return (m2, model_kwargs i) ∧
    params m2 !! "cv" = Some (StratifiedKFold (PyInt 4) (PyBool true) (PyInt 42)).
Proof.
  intros mk.
  assert (∃ i, @instantiate libs LogisticRegressionPropensityModel None None mk
               = Return i) as [i Hi] by by eexists.
  destruct (@LogisticRegression__model_reread libs LogisticRegressionPropensityModel
              None mk (PyInt 7) i (or_introl eq_refl))
    as (Hcv & m2 & Hm2 & Hcv2 & _); [by vm_compute..|done|].
  exists i, m2. by repeat (split; [done|]).
Defined.


End method_examples.

Section instance_examples.
Import Toy.

Let features : np.ndarray2 := [[0.5]; [0.0005]; [1]]%float.
Let treatment : labels := [1; 0; 1]%Z.


(** X18, witness: the default model, created in a world without objects. *)
Lemma compute_propensity_score_default_model_witness :
  let run := @compute_propensity_score libs models features treatment
               None None None false empty_world in
  run.1 = Return ([0.5; 1e-3; 1 - 1e-3]%float, Some 1%positive) ∧
  ∃ r i,
    Some 1%positive = Some r ∧ heap empty_world !! r = None ∧
    heap run.2 !! r = Some (Instance ElasticNetPropensityModel i) ∧
    clip_bounds i = (1e-3, 1 - 1e-3)%float ∧
    est (model i) = LogisticRegressionCV ∧
    is_Some (learned (model i)) ∧
    dom (heap run.2) = {[ r ]} ∪ dom (heap empty_world) ∧
    ∀ r', r' ≠ r → heap run.2 !! r' = heap empty_world !! r'.
Proof.
  intros run. split; [by vm_compute|].
  apply (@compute_propensity_score_default_model libs models features treatment
           None None empty_world [0.5; 1e-3; 1 - 1e-3]%float (Some 1%positive) run.2).
  by vm_compute.
Defined.

(** X20, witness: calibration of the scores of a model with
    [predict_proba]; the regression of these runs clips the scores to its
    bounds. *)
Lemma compute_propensity_score_calibrated_scores_witness :
  let run := @compute_propensity_score libs models features treatment
               (Some 1%positive) None None true (world_with soft) in
  let two_eps := (2 * np.finfo_eps)%float in
  run.1 = Return ([0.75; two_eps; 1 - two_eps]%float, None) ∧
  ∃ p1, @calibrate libs [0.75; 0; 1]%float treatment = Return p1 ∧
        [0.75; two_eps; 1 - two_eps]%float = force_within_range p1 ∧
        [0.75; two_eps; 1 - two_eps]%float = p1 ∧
        trace (wenv run.2) =
          [Called 1%positive "fit"; Called 1%positive "predict_proba";
           Info calibrating_message].
Proof.
  intros run two_eps. split; [by vm_compute|].
  destruct (@compute_propensity_score_calibrated_scores libs models features treatment
              1%positive None None (world_with soft)
              [0.75; two_eps; 1 - two_eps]%float None run.2)
    as (w1 & p0 & w2 & p1 & Hfit & Hpredict & Hcal & Hclamp & Htrace & Hsame);
    [by vm_compute|].
  assert (p1 = [0.75; two_eps; 1 - two_eps]%float) as Hp1.
  { assert (w1 = (@p_model_fit libs models 1%positive features treatment
                    (world_with soft)).2) as -> by by rewrite Hfit.
    assert (p0 = [0.75; 0; 1]%float) as ->.
    { assert (Return p0 = Return [0.75; 0; 1]%float) as [= ->]; [|done].
      change (Return p0) with ((Return p0 : outcome np.ndarray, w2).1).
      by rewrite <- Hpredict. }
    assert (Return p1 = Return [0.75; two_eps; 1 - two_eps]%float) as [= ->]; [|done].
    by rewrite <- Hcal. }
  exists p1. subst p1. split; [by vm_compute|]. split; [by vm_compute|].
  split; [done|]. by vm_compute.
Defined.

End instance_examples.

(** ** The order of calls and log records in compute_propensity_score *)

Section protocol_facts.
Context `{Libraries} `{ForeignModels}.

#[local] Ltac elem_of_list :=
  simpl; repeat first [apply list_elem_of_here | apply list_elem_of_further].

#[local] Ltac elem_of_cases H :=
  repeat (apply elem_of_cons in H as [H|H]);
  [subst.. | by apply elem_of_nil in H].

Lemma on_instance_fit_trace r c i X y w res w1 :
  on_instance r c i (self_fit c X y) w = (res, w1) →
  trace (wenv w1) = trace (wenv w).
Proof.
  unfold on_instance. destruct (self_fit c X y _) as [a [i' e']] eqn:Hfit.
  intros [= <- <-]. simpl.
  by apply self_fit_attrs in Hfit as (_ & _ & _ & _ & _ & ->).
Qed.

Lemma on_instance_predict_trace r c i X w res w1 :
  on_instance r c i (self_predict c X) w = (res, w1) →
  trace (wenv w1) = trace (wenv w).
Proof.
  unfold on_instance. pose proof (self_predict_state c X i (wenv w)) as Hst.
  destruct (self_predict c X _) as [a [i' e']]. simpl in Hst.
  injection Hst as -> ->. by intros [= <- <-].
Qed.

Lemma on_foreign_trace {A} r u (m : foreign → outcome A * foreign) w res w1 :
  on_foreign r u m w = (res, w1) → trace (wenv w1) = trace (wenv w).
Proof. unfold on_foreign. destruct (m u) as [a u']. by intros [= <- <-]. Qed.

(** A call on the model is noted once the attribute was found. *)
Lemma p_model_fit_events r X y w res w1 :
  p_model_fit r X y w = (res, w1) →
  (trace (wenv w1) = trace (wenv w) ∧ ∃ e, res = Raise e) ∨
  trace (wenv w1) = (trace (wenv w) ++ [Called r "fit"])%list.
Proof.
  unfold p_model_fit, bind.
  destruct (getattr r "fit" w) as [[o|e] w0] eqn:Hget;
    apply getattr_inv in Hget as [-> _].
  - rewrite called_spec. intros Hrun. right. destruct o as [c i|u].
    + by apply on_instance_fit_trace in Hrun.
    + by apply on_foreign_trace in Hrun.
  - intros [= <- <-]. left. eauto.
Qed.

Lemma p_model_predict_events r X w res w1 :
  p_model_predict r X w = (res, w1) →
  (trace (wenv w1) = trace (wenv w) ∧ ∃ e, res = Raise e) ∨
  trace (wenv w1) = (trace (wenv w) ++ [Called r "predict"])%list.
Proof.
  unfold p_model_predict, bind.
  destruct (getattr r "predict" w) as [[o|e] w0] eqn:Hget;
    apply getattr_inv in Hget as [-> _].
  - rewrite called_spec. intros Hrun. right. destruct o as [c i|u].
    + by apply on_instance_predict_trace in Hrun.
    + by apply on_foreign_trace in Hrun.
  - intros [= <- <-]. left. eauto.
Qed.

Lemma p_model_predict_proba_events r X w res w1 :
  p_model_predict_proba r X w = (res, w1) →
  (trace (wenv w1) = trace (wenv w) ∧ ∃ e, res = Raise e) ∨
  trace (wenv w1) = (trace (wenv w) ++ [Called r "predict_proba"])%list.
Proof.
  unfold p_model_predict_proba, bind.
  destruct (getattr r "predict_proba" w) as [[o|e] w0] eqn:Hget;
    apply getattr_inv in Hget as [-> _].
  - rewrite called_spec. intros Hrun. right. destruct o as [c i|u].
    + by injection Hrun as <- <-.
    + by apply on_foreign_trace in Hrun.
  - intros [= <- <-]. left. eauto.
Qed.

(** The records of the prediction step. *)
Lemma predict_scores_events r X w res w1 :
  predict_scores r X w = (res, w1) →
  let pp := Called r "predict_proba" in
  let fb := Info fallback_message in
  let pr := Called r "predict" in
  ∃ evs, trace (wenv w1) = (trace (wenv w) ++ evs)%list ∧
    match res with
    | Return _ => evs ∈ [[pp]; [fb; pr]; [pp; fb; pr]]
    | Raise _ => evs ∈ [[]; [pp]; [fb]; [pp; fb]; [fb; pr]; [pp; fb; pr]]
    end.
Proof.
  intros Hrun pp fb pr. rewrite predict_scores_eq in Hrun. unfold bind at 1 in Hrun.
  destruct (p_model_predict_proba r X w) as [[P|e] w0] eqn:Hproba;
    apply p_model_predict_proba_events in Hproba.
  - destruct Hproba as [[_ [e He]]|Hproba]; [done|].
    unfold getitem_column1 in Hrun.
    destruct (np.column1 P); injection Hrun as <- <-; exists [pp];
      (split; [done|elem_of_list]).
  - assert (∃ evs0, trace (wenv w0) = (trace (wenv w) ++ evs0)%list ∧
                    (evs0 = [] ∨ evs0 = [pp])) as (evs0 & Htr0 & Hevs0).
    { destruct Hproba as [[Htr _]|Htr]; rewrite Htr; [exists []|exists [pp]]; split; auto.
      by rewrite app_nil_r. }
    destruct e as [a|cls].
    + unfold bind in Hrun. simpl in Hrun.
      apply p_model_predict_events in Hrun. simpl in Hrun.
      destruct Hrun as [[Htr [e ->]]|Htr].
      * exists (evs0 ++ [fb])%list. rewrite Htr, Htr0, app_assoc. split; [done|].
        destruct Hevs0 as [-> | ->]; elem_of_list.
      * exists (evs0 ++ [fb; pr])%list. rewrite Htr, Htr0, <- !app_assoc.
        split; [done|]. destruct res; destruct Hevs0 as [-> | ->]; elem_of_list.
    + injection Hrun as <- <-. exists evs0. split; [done|].
      destruct Hevs0 as [-> | ->]; elem_of_list.
Qed.

(** X21: the order of the calls on the model and of the log records, for
    any model supplied by the caller and any outcome.  [fit] is called first
    and at most once; [predict_proba] is called at most once, right after
    [fit]; the message of the fallback comes right before the one call of
    [predict], which never happens without it; the message of the
    calibration, if any, is the last record, and appears only with
    [calibrate_p=True].  A run that returns has added one of three sequences,
    each ending with a call of [predict_proba] or of [predict], followed by
    the message of the calibration exactly when asked to calibrate; a run
    that raises has added one of ten. *)
Theorem compute_propensity_score_protocol X treatment r X_pred treatment_pred
    calibrate_p w res w' :
  compute_propensity_score X treatment (Some r) X_pred treatment_pred calibrate_p w
    = (res, w') →
  let fit := Called r "fit" in
  let pp := Called r "predict_proba" in
  let fb := Info fallback_message in
  let pr := Called r "predict" in
  let cal := Info calibrating_message in
  ∃ evs, trace (wenv w') = (trace (wenv w) ++ evs)%list ∧
    match res with
    | Return _ =>
        if calibrate_p
        then evs ∈ [[fit; pp; cal]; [fit; fb; pr; cal]; [fit; pp; fb; pr; cal]]
        else evs ∈ [[fit; pp]; [fit; fb; pr]; [fit; pp; fb; pr]]
    | Raise _ =>
        evs ∈ [[]; [fit]; [fit; pp]; [fit; fb]; [fit; pp; fb]; [fit; fb; pr];
               [fit; pp; fb; pr]] ∨
        calibrate_p = true ∧
        evs ∈ [[fit; pp; cal]; [fit; fb; pr; cal]; [fit; pp; fb; pr; cal]]
    end.
Proof.
  intros Hrun fit pp fb pr cal.
  destruct (p_model_fit r X treatment w) as [[[]|e] w1] eqn:Hfit.
  2:{ rewrite (compute_propensity_score_fit_Raise _ _ _ _ _ _ _ _ _ Hfit) in Hrun.
      injection Hrun as <- <-. apply p_model_fit_events in Hfit as [[-> _]| ->].
      - exists []. rewrite app_nil_r. split; [done|]. left. elem_of_list.
      - exists [fit]. split; [done|]. left. elem_of_list. }
  pose proof Hfit as Htr1. apply p_model_fit_events in Htr1 as [[_ [e He]]|Htr1]; [done|].
  destruct (predict_scores r (default X X_pred) w1) as [[p0|e] w2] eqn:Hpredict.
  2:{ rewrite (compute_propensity_score_predict_Raise _ _ _ _ _ _ _ _ _ _ Hfit Hpredict)
        in Hrun.
      injection Hrun as <- <-.
      apply predict_scores_events in Hpredict as (evs & -> & Hevs).
      exists (fit :: evs). rewrite Htr1, <- app_assoc. split; [done|]. left.
      elem_of_cases Hevs; elem_of_list. }
  rewrite (compute_propensity_score_after_predict _ _ _ _ _ _ _ _ _ _ Hfit Hpredict)
    in Hrun.
  apply predict_scores_events in Hpredict as (evs & Htr2 & Hevs).
  destruct calibrate_p.
  - exists (fit :: evs ++ [cal])%list.
    assert (trace (wenv w') = (trace (wenv w) ++ fit :: evs ++ [cal])%list) as Htr.
    { destruct (calibrate p0 _); injection Hrun as <- <-; simpl;
        rewrite Htr2, Htr1, <- !app_assoc; done. }
    split; [done|].
    destruct (calibrate p0 _); injection Hrun as <- <-.
    + elem_of_cases Hevs; elem_of_list.
    + right. split; [done|]. elem_of_cases Hevs; elem_of_list.
  - injection Hrun as <- <-. exists (fit :: evs).
    rewrite Htr2, Htr1, <- app_assoc. split; [done|].
    elem_of_cases Hevs; elem_of_list.
Qed.

End protocol_facts.

Section protocol_examples.
Import Toy.

Let features : np.ndarray2 := [[0.5]; [0.0005]; [1]]%float.
Let treatment : labels := [1; 0; 1]%Z.

(** X21, witness: a model with hard-label [predict] only, with
    calibration. *)
Lemma compute_propensity_score_protocol_witness :
  let run := @compute_propensity_score libs models features treatment
               (Some 1%positive) None None true (world_with hard_only) in
  ∃ evs,
    trace (wenv run.2) = (trace (wenv (world_with hard_only)) ++ evs)%list ∧
    evs = [Called 1%positive "fit"; Info fallback_message; Called 1%positive "predict";
           Info calibrating_message].
Proof.
  intros run.
  destruct (@compute_propensity_score_protocol libs models features treatment
              1%positive None None true (world_with hard_only) run.1 run.2)
    as (evs & Htr & _); [by vm_compute|].
  exists evs. split; [done|].
  assert (trace (wenv run.2)
          = [Called 1%positive "fit"; Info fallback_message;
             Called 1%positive "predict"; Info calibrating_message]) as Hrun
    by by vm_compute.
  rewrite Hrun in Htr. simpl in Htr. by rewrite Htr.
Defined.

End protocol_examples.
